(** * Exchange-rate ETL: a shallow embedding of [etl_exchange_rates.py]

    The Python script reads two CSV tables with pandas, keeps the columns of
    four target currencies, averages the historical series per currency and
    renders a table.  This file embeds the four functions that carry logic
    ([parse_daily_rates], [parse_historical_rates], [calculate_mean_rates],
    [create_html_table]), then [save_html_report] and [main], together with
    the pieces of the Python runtime they call ([pd.isna], [==] against a
    text literal, [float], [str], the [.4f] format), and states the
    behaviour of the pipeline as theorems.

    Rates are IEEE binary64 numbers, the [float] of Python: they are Rocq's
    primitive floats, whose operations are specified in [FloatAxioms].
    Dictionaries are [gmap string _]; lists that the code appends to are
    lists extended at their end.  A text is the list of the bytes of its
    UTF-8 encoding.  An exception that a loop does not catch is a flag of
    the loop's state, so that what was printed before it is kept. *)

From Stdlib Require Import ZArith Floats String Ascii List Lia.
From stdpp Require Import gmap strings list pretty.

Set Warnings "-inexact-float".

Local Open Scope string_scope.
Local Open Scope list_scope.
Local Open Scope Z_scope.

(** ** The Python runtime seen by the script *)

Module PyFloat.

(** *** [float(text)]

    For a [str], CPython first maps every character beyond ASCII to ASCII
    (white space to a blank, a decimal digit of any script to its ASCII
    digit, anything else to a question mark, where it stops), removes the
    underscores that sit between two digits, strips the ASCII white space
    at both ends, then reads an optionally signed [inf], [infinity] or
    [nan] (any letter case) or a decimal number with an optional exponent,
    and rounds it to the nearest binary64 value, ties to even.  A text is
    held as the bytes of its UTF-8 encoding. *)

(** [Py_ISSPACE]: the white space that [float] strips. *)
Definition is_space (a : ascii) : bool :=
  let n := Z.of_nat (nat_of_ascii a) in
  ((9 <=? n) && (n <=? 13)) || (n =? 32).

Definition is_digit (a : ascii) : bool :=
  let n := Z.of_nat (nat_of_ascii a) in (48 <=? n) && (n <=? 57).

Definition digit_value (a : ascii) : Z := Z.of_nat (nat_of_ascii a) - 48.

Definition lower (a : ascii) : ascii :=
  let n := nat_of_ascii a in
  if ((65 <=? n) && (n <=? 90))%nat then ascii_of_nat (n + 32) else a.

Fixpoint lstrip {A : Type} (space : A -> bool) (l : list A) : list A :=
  match l with
  | a :: l' => if space a then lstrip space l' else l
  | [] => []
  end.

Definition strip {A : Type} (space : A -> bool) (l : list A) : list A :=
  rev (lstrip space (rev (lstrip space l))).

(** An underscore must follow a digit and precede a digit. *)
Fixpoint remove_underscores (prev : ascii) (l : list ascii)
  : option (list ascii) :=
  match l with
  | [] => if Ascii.eqb prev "_" then None else Some []
  | p :: l' =>
      if Ascii.eqb p "_" then
        if is_digit prev then remove_underscores p l' else None
      else if Ascii.eqb prev "_" && negb (is_digit p) then None
      else cons p <$> remove_underscores p l'
  end.

Fixpoint span_digits (l : list ascii) : list ascii * list ascii :=
  match l with
  | a :: l' =>
      if is_digit a then
        let '(ds, rest) := span_digits l' in (a :: ds, rest)
      else ([], l)
  | [] => ([], [])
  end.

Definition digits_to_Z (ds : list ascii) : Z :=
  fold_left (fun acc d => 10 * acc + digit_value d) ds 0.

Definition read_sign (l : list ascii) : bool * list ascii :=
  match l with
  | "-"%char :: l' => (true, l')
  | "+"%char :: l' => (false, l')
  | _ => (false, l)
  end.

(** [l] starts with [word], letter case ignored; the rest is returned. *)
Fixpoint match_word (word l : list ascii) : option (list ascii) :=
  match word, l with
  | [], _ => Some l
  | w :: word', a :: l' =>
      if Ascii.eqb w (lower a) then match_word word' l' else None
  | _ :: _, [] => None
  end.

(** The binary64 value nearest to [m * 10 ^ e10], for [m > 0]. *)
Definition round_decimal (neg : bool) (m : positive) (e10 : Z) : spec_float :=
  if 0 <=? e10 then
    binary_round prec emax neg (Pos.mul m (Z.to_pos (10 ^ e10))) 0
  else
    let d := 10 ^ (- e10) in
    let s := Z.max 0 (Zdigits2 d + 64 - Zdigits2 (Zpos m)) in
    let n := Z.shiftl (Zpos m) s in
    let q := n / d in
    let r := n mod d in
    let loc := if r =? 0 then loc_Exact else loc_Inexact (2 * r ?= d) in
    binary_round_aux prec emax neg q (- s) loc.

Definition decimal_to_float (neg : bool) (m e10 : Z) : float :=
  match m with
  | Zpos p => SF2Prim (round_decimal neg p e10)
  | _ => if neg then PrimFloat.neg_zero else PrimFloat.zero
  end.

(** The exponent part: [e] or [E], an optional sign, one digit at least.
    When no digit follows, the [e] is not consumed. *)
Definition read_exponent (l : list ascii) : Z * list ascii :=
  match l with
  | a :: l' =>
      if Ascii.eqb (lower a) "e" then
        let '(eneg, l'') := read_sign l' in
        match span_digits l'' with
        | ([], _) => (0, l)
        | (ds, rest) =>
            ((if eneg then - digits_to_Z ds else digits_to_Z ds), rest)
        end
      else (0, l)
  | [] => (0, [])
  end.

Definition read_number (neg : bool) (l : list ascii) : option float :=
  let '(ipart, l1) := span_digits l in
  let '(fpart, l2) :=
    match l1 with
    | "."%char :: l1' => span_digits l1'
    | _ => ([], l1)
    end in
  match ipart ++ fpart with
  | [] => None
  | ds =>
      let '(e, l3) := read_exponent l2 in
      match l3 with
      | [] =>
          Some (decimal_to_float neg (digits_to_Z ds)
                  (e - Z.of_nat (length fpart)))
      | _ :: _ => None
      end
  end.

(** An optionally signed [inf], [infinity] or [nan] at the head of [l],
    with what follows it. *)
Definition parse_inf_or_nan (l : list ascii) : option (float * list ascii) :=
  let '(neg, body) := read_sign l in
  match match_word (list_ascii_of_string "inf") body with
  | Some rest =>
      let rest' :=
        match match_word (list_ascii_of_string "inity") rest with
        | Some r => r
        | None => rest
        end in
      Some (if neg then neg_infinity else infinity, rest')
  | None =>
      match match_word (list_ascii_of_string "nan") body with
      | Some rest => Some (nan, rest)
      | None => None
      end
  end.

(** The ASCII text that [float] parses; [None] stands for the
    [ValueError] that it raises. *)
Definition float_of_ascii (l : list ascii) : option float :=
  match remove_underscores "000"%char l with
  | None => None
  | Some l' =>
      let body := strip is_space l' in
      match parse_inf_or_nan body with
      | Some (v, []) => Some v
      | Some (_, _ :: _) => None
      | None => let '(neg, digits) := read_sign body in read_number neg digits
      end
  end.

(** The code points of a text.  The UTF-8 encoding of a [str] is
    well-formed; a byte that starts no sequence is read as U+FFFD. *)
Definition byte (a : ascii) : N := N_of_ascii a.

Definition continuation_byte (a : ascii) : bool :=
  ((128 <=? byte a) && (byte a <? 192))%N.

Definition low6 (a : ascii) : N := (byte a - 128)%N.

Fixpoint utf8_decode (l : list ascii) : list N :=
  match l with
  | [] => []
  | a :: l1 =>
      let b := byte a in
      let replaced := 65533%N :: utf8_decode l1 in
      if (b <? 128)%N then b :: utf8_decode l1
      else if (b <? 192)%N then replaced
      else
        match l1 with
        | a1 :: l2 =>
            if negb (continuation_byte a1) then replaced
            else if (b <? 224)%N then
              ((b - 192) * 64 + low6 a1)%N :: utf8_decode l2
            else
              match l2 with
              | a2 :: l3 =>
                  if negb (continuation_byte a2) then replaced
                  else if (b <? 240)%N then
                    ((b - 224) * 4096 + low6 a1 * 64 + low6 a2)%N
                    :: utf8_decode l3
                  else
                    match l3 with
                    | a3 :: l4 =>
                        if continuation_byte a3 && (b <? 248)%N then
                          ((b - 240) * 262144 + low6 a1 * 4096
                           + low6 a2 * 64 + low6 a3)%N
                          :: utf8_decode l4
                        else replaced
                    | [] => replaced
                    end
              | [] => replaced
              end
        | [] => replaced
        end
  end.

Definition code_points (s : string) : list N :=
  utf8_decode (list_ascii_of_string s).

(** [Py_UNICODE_ISSPACE]: the white space of [str.strip] and of the
    mapping to ASCII. *)
Definition unicode_space (c : N) : bool :=
  ((9 <=? c) && (c <=? 13) || (28 <=? c) && (c <=? 32)
   || (c =? 133) || (c =? 160) || (c =? 5760)
   || (8192 <=? c) && (c <=? 8202) || (c =? 8232) || (c =? 8233)
   || (c =? 8239) || (c =? 8287) || (c =? 12288))%N.

(** [Py_UNICODE_TODECIMAL]: the value of a decimal digit, which the
    Unicode database of the interpreter gives. *)
Class UnicodeData := unicode_decimal : N -> option N.

Section Unicode.

Context {db : UnicodeData}.

(** The loop of [_PyUnicode_TransformDecimalAndSpaceToASCII] on a text
    that is not ASCII. *)
Fixpoint transform (cps : list N) : list ascii :=
  match cps with
  | [] => []
  | c :: cps' =>
      if (c <? 127)%N then ascii_of_N c :: transform cps'
      else if unicode_space c then " "%char :: transform cps'
      else
        match unicode_decimal c with
        | Some d => ascii_of_N (48 + d) :: transform cps'
        | None => ["?"%char]
        end
  end.

Definition to_ascii (cps : list N) : list ascii :=
  if forallb (fun c => (c <? 128)%N) cps then map ascii_of_N cps
  else transform cps.

(** [None] stands for the [ValueError] that [float] raises. *)
Definition float_of_string (s : string) : option float :=
  float_of_ascii (to_ascii (code_points s)).

End Unicode.

(** The decimal digits of Unicode 15: the blocks of ten, by their zero. *)
Definition decimal_zeros : list N :=
  [48; 1632; 1776; 1984; 2406; 2534; 2662; 2790; 2918; 3046; 3174; 3302;
   3430; 3558; 3664; 3792; 3872; 4160; 4240; 6112; 6160; 6470; 6608; 6784;
   6800; 6992; 7088; 7232; 7248; 42528; 43216; 43264; 43472; 43504; 43600;
   44016; 65296; 66720; 68912; 69734; 69872; 69942; 70096; 70384; 70736;
   70864; 71248; 71360; 71472; 71904; 72016; 72784; 73040; 73120; 73552;
   92768; 92864; 93008; 120782; 120792; 120802; 120812; 120822; 123200;
   123632; 124144; 125264; 130032]%N.

Definition unicode_15 : UnicodeData :=
  fun c =>
    match List.find (fun z => (z <=? c) && (c <? z + 10))%N decimal_zeros with
    | Some z => Some (c - z)%N
    | None => None
    end.

(** [float(int)] in numpy, where an integer has 64 bits: the nearest
    binary64 value. *)
Definition float_of_Z (z : Z) : float :=
  SF2Prim (binary_normalize prec emax z 0 false).

(** [float(int)] in Python: [None] stands for the [OverflowError] raised
    when the nearest value is beyond the largest float. *)
Definition int_to_float (z : Z) : option float :=
  match binary_normalize prec emax z 0 false with
  | S754_infinity _ => None
  | x => Some (SF2Prim x)
  end.

(** *** The format [f"{x:.4f}"]

    The exact binary value is rounded to four decimals, ties to even. *)

Definition round_half_even (num den : Z) : Z :=
  let q := num / den in
  let r := num mod den in
  match 2 * r ?= den with
  | Lt => q
  | Gt => q + 1
  | Eq => if Z.even q then q else q + 1
  end.

Definition scaled_4 (m : positive) (e : Z) : Z :=
  if 0 <=? e then Zpos m * 2 ^ e * 10000
  else round_half_even (Zpos m * 10000) (2 ^ (- e)).

Definition pad4 (n : Z) : string :=
  match pretty (10000 + n) with
  | String _ s => s
  | EmptyString => EmptyString
  end.

Definition format_4f (f : float) : string :=
  let sign (s : bool) := if s then "-" else "" in
  match Prim2SF f with
  | S754_nan => "nan"
  | S754_infinity s => sign s +:+ "inf"
  | S754_zero s => sign s +:+ "0.0000"
  | S754_finite s m e =>
      let n := scaled_4 m e in
      sign s +:+ pretty (n / 10000) +:+ "." +:+ pad4 (n mod 10000)
  end.

End PyFloat.

Import PyFloat.

(** ** The exceptions of the script *)

Inductive message :=
| CsvNoDataRows           (* "CSV file is empty - no data rows found" *)
| CsvEmptyOrMalformed     (* "CSV file is empty or malformed: ..." *)
| CsvParseFailure         (* "Failed to parse CSV file: ..." *)
| CsvOther                (* a ValueError of [read_csv], passed on *)
| MissingDateColumn       (* "CSV file missing required 'Date' column" *)
| NoValidRates            (* "No valid rates found for any target ..." *)
| NoValidHistoricalRates  (* "No valid historical rates found for ..." *)
| FrameEmpty              (* "Cannot calculate means: DataFrame is empty" *)
| FrameMissingColumns.    (* "DataFrame missing required columns: ..." *)

Inductive exn :=
| FileNotFoundError
| ValueError (m : message)
| RuntimeError.

Inductive result (A : Type) :=
| Ok (a : A)
| Raise (e : exn).
Arguments Ok {A} a.
Arguments Raise {A} e.

(** The kinds of failure the specification names. *)
Inductive failure :=
| NotFound | MalformedInput | NoUsableData | InvalidInput | Unexpected.

Definition kind (e : exn) : failure :=
  match e with
  | FileNotFoundError => NotFound
  | ValueError (CsvNoDataRows | CsvEmptyOrMalformed | CsvParseFailure
               | CsvOther | MissingDateColumn) => MalformedInput
  | ValueError (NoValidRates | NoValidHistoricalRates) => NoUsableData
  | ValueError (FrameEmpty | FrameMissingColumns) => InvalidInput
  | RuntimeError => Unexpected
  end.

Section Script.

(** The Unicode database of the interpreter that runs the script. *)
Context {db : UnicodeData}.

(** *** Cells of a [DataFrame]

    [read_csv] leaves in a cell a float (NaN for a missing or "not
    available" field), an integer, a boolean, or the text of the field when
    the column is not numeric.  An integer of a numeric column has 64 bits;
    a cell of a column of Python objects can hold any integer. *)

Inductive cell :=
| CFloat (f : float)
| CInt (z : Z)
| CBool (b : bool)
| CStr (s : string).

(** [pd.isna(v)] *)
Definition isna (v : cell) : bool :=
  match v with
  | CFloat f => is_nan f
  | _ => false
  end.

(** [v == text], for a text literal *)
Definition eq_text (v : cell) (text : string) : bool :=
  match v with
  | CStr s => String.eqb s text
  | _ => false
  end.

(** What the call [float(v)] does. *)
Inductive float_outcome :=
| Returns (f : float)
| RaisesValueError
| RaisesOverflowError.

Definition float_call (v : cell) : float_outcome :=
  match v with
  | CFloat f => Returns f
  | CInt z =>
      match int_to_float z with
      | Some f => Returns f
      | None => RaisesOverflowError
      end
  | CBool b => Returns (if b then 1%float else 0%float)
  | CStr s =>
      match float_of_string s with
      | Some f => Returns f
      | None => RaisesValueError
      end
  end.

(** [float(v)] when the call returns; [None] when it raises. *)
Definition py_float (v : cell) : option float :=
  match float_call v with
  | Returns f => Some f
  | _ => None
  end.

(** The call raises an exception that [except (ValueError, TypeError)]
    does not catch. *)
Definition float_overflow (v : cell) : bool :=
  match float_call v with
  | RaisesOverflowError => true
  | _ => false
  end.

(** [if x], for [x : float | None] *)
Definition truthy (x : option float) : bool :=
  match x with
  | Some f => negb (f =? 0)%float
  | None => false
  end.

Record DataFrame := {
  columns : list string;
  rows : list (list cell)
}.

Definition has_column (df : DataFrame) (name : string) : bool :=
  bool_decide (name ∈ columns df).

Fixpoint index_of (name : string) (names : list string) : option nat :=
  match names with
  | [] => None
  | n :: names' =>
      if String.eqb n name then Some O else S <$> index_of name names'
  end.

(** [row[name]]: a row shorter than the header is padded with NaN, as
    [read_csv] does; the callers check that the label exists. *)
Definition row_get (df : DataFrame) (row : list cell) (name : string) : cell :=
  match index_of name (columns df) with
  | Some i => default (CFloat nan) (row !! i)
  | None => CFloat nan
  end.

(** [df.empty] *)
Definition df_empty (df : DataFrame) : bool :=
  match rows df, columns df with
  | _ :: _, _ :: _ => false
  | _, _ => true
  end.

(** The integers of a numeric column: int64 or uint64. *)
Definition int64_or_uint64 (z : Z) : bool :=
  (- 2 ^ 63 <=? z) && (z <? 2 ^ 64).

(** [df.iterrows()] gives every row one dtype: integers become floats
    when all the columns are numeric and one of them holds floats. *)
Definition is_numeric (v : cell) : bool :=
  match v with
  | CFloat _ => true
  | CInt z => int64_or_uint64 z
  | _ => false
  end.

Definition is_cfloat (v : cell) : bool :=
  match v with CFloat _ => true | _ => false end.

Definition upcast (v : cell) : cell :=
  match v with CInt z => CFloat (float_of_Z z) | _ => v end.

Definition iterrows (df : DataFrame) : list (list cell) :=
  if forallb (forallb is_numeric) (rows df)
     && existsb (existsb is_cfloat) (rows df)
  then map (map upcast) (rows df)
  else rows df.

(** ** Warnings and input files *)

(** The lines printed with a warning sign. *)
Inductive warning :=
| NonPositiveRate (currency : string) (rate : float)
| InvalidRateValue (currency : string) (v : cell)
| MissingColumns (currencies : list string)
| InvalidValues (currencies : list string)
| CurrencyNotFound (currency : string)
| MissingCurrencies (currencies : list string)
| NoHistoricalData (currencies : list string).

(** What [csv_file.exists()] and [pd.read_csv] make of a path. *)
Inductive read_csv :=
| EmptyDataError
| ParserError
| OtherValueError
| OtherException
| Frame (df : DataFrame).

Inductive csv_file :=
| Missing
| Exists (r : read_csv).

(** ** The script *)

Definition TARGET_CURRENCIES : list string := ["USD"; "SEK"; "GBP"; "JPY"].

(** The handlers that close both parsers. *)
Definition read_failure (r : read_csv) : exn :=
  match r with
  | EmptyDataError => ValueError CsvEmptyOrMalformed
  | ParserError => ValueError CsvParseFailure
  | OtherValueError => ValueError CsvOther
  | _ => RuntimeError
  end.

(** The test that opens both loops: [pd.isna(v) or v == '' or v == 'N/A']. *)
Definition not_available (v : cell) : bool :=
  isna v || eq_text v "" || eq_text v "N/A".

(** *** [parse_daily_rates] *)

(** The variables of the loop, the lines printed, and [raised]: an
    exception that the loop does not catch has left it. *)
Record daily_state := DailyState {
  daily_rates : gmap string float;
  missing_currencies : list string;
  invalid_currencies : list string;
  printed : list warning;
  raised : bool
}.

(** One turn of the loop over [TARGET_CURRENCIES]; [first] is the row that
    [.iloc[0]] reads. *)
Definition daily_step (df : DataFrame) (first : list cell)
    (st : daily_state) (currency : string) : daily_state :=
  if raised st then st
  else if negb (has_column df currency) then
    DailyState (daily_rates st) (missing_currencies st ++ [currency])
      (invalid_currencies st) (printed st) false
  else
    let rate_value := row_get df first currency in
    if not_available rate_value then
      DailyState (daily_rates st) (missing_currencies st)
        (invalid_currencies st ++ [currency]) (printed st) false
    else
      match float_call rate_value with
      | Returns rate_float =>
          DailyState (<[currency := rate_float]> (daily_rates st))
            (missing_currencies st) (invalid_currencies st)
            (if (rate_float <=? 0)%float
             then printed st ++ [NonPositiveRate currency rate_float]
             else printed st)
            false
      | RaisesValueError =>
          DailyState (daily_rates st) (missing_currencies st)
            (invalid_currencies st ++ [currency])
            (printed st ++ [InvalidRateValue currency rate_value])
            false
      | RaisesOverflowError =>
          DailyState (daily_rates st) (missing_currencies st)
            (invalid_currencies st) (printed st) true
      end.

Definition daily_loop (df : DataFrame) (first : list cell) : daily_state :=
  fold_left (daily_step df first) TARGET_CURRENCIES
    (DailyState ∅ [] [] [] false).

Definition report (w : list string -> warning) (l : list string)
  : list warning :=
  match l with [] => [] | _ :: _ => [w l] end.

(** The warnings printed, and the dictionary returned or the exception.
    The last handler turns the exception that left the loop into a
    [RuntimeError]. *)
Definition parse_daily_rates_run (csv : csv_file)
  : list warning * result (gmap string float) :=
  match csv with
  | Missing => ([], Raise FileNotFoundError)
  | Exists (Frame df) =>
      match rows df with
      | [] => ([], Raise (ValueError CsvNoDataRows))
      | first :: _ =>
          let st := daily_loop df first in
          if raised st then (printed st, Raise RuntimeError)
          else
            let out := (printed st
                        ++ report MissingColumns (missing_currencies st)
                        ++ report InvalidValues (invalid_currencies st)) in
            if decide (size (daily_rates st) = O)
            then (out, Raise (ValueError NoValidRates))
            else (out, Ok (daily_rates st))
      end
  | Exists r => ([], Raise (read_failure r))
  end.

Definition parse_daily_rates (csv : csv_file) : result (gmap string float) :=
  (parse_daily_rates_run csv).2.

(** *** [parse_historical_rates] *)

Record observation := Observation {
  date : string;
  currency : string;
  rate : float
}.

(** [pd.DataFrame(historical_data)] *)
Definition record_row (o : observation) : list cell :=
  [CStr (date o); CStr (currency o); CFloat (rate o)].

Definition DataFrame_of_records (data : list observation) : DataFrame :=
  match data with
  | [] => {| columns := []; rows := [] |}
  | _ :: _ => {| columns := ["date"; "currency"; "rate"];
                 rows := map record_row data |}
  end.

Record historical_state := HistoricalState {
  historical_data : list observation;
  missing_columns : list string;
  currencies_found : gmap string nat;
  warned : list warning;
  interrupted : bool
}.

Section Pipeline.

(** [str(x)] for a float [x] is CPython's shortest text that reads back
    as [x]; the digit generation is left to the runtime. *)
Variable float_repr : float -> string.

(** [Series.mean()] over the rates of one group, in row order: the
    summation is pandas' own. *)
Variable series_mean : list float -> float.

(** [str(v)] *)
Definition py_str (v : cell) : string :=
  match v with
  | CStr s => s
  | CInt z => pretty z
  | CBool b => if b then "True" else "False"
  | CFloat f => float_repr f
  end.

(** One turn of the loop over the rows, for one currency: the list of
    records gathered so far and [valid_count]; [None] once an exception
    that the loop does not catch has left it. *)
Definition row_step (df : DataFrame) (currency : string)
    (acc : option (list observation * nat)) (row : list cell)
  : option (list observation * nat) :=
  match acc with
  | None => None
  | Some (data, valid_count) =>
      let rate_value := row_get df row currency in
      if not_available rate_value then acc
      else
        match float_call rate_value with
        | Returns rate_float =>
            let date_value := row_get df row "Date" in
            if (rate_float <=? 0)%float then acc
            else Some (data ++ [Observation (py_str date_value) currency
                                  rate_float],
                       S valid_count)
        | RaisesValueError => acc
        | RaisesOverflowError => None
        end
  end.

Definition historical_step (df : DataFrame) (st : historical_state)
    (currency : string) : historical_state :=
  if interrupted st then st
  else if negb (has_column df currency) then
    HistoricalState (historical_data st) (missing_columns st ++ [currency])
      (currencies_found st) (warned st ++ [CurrencyNotFound currency]) false
  else
    match fold_left (row_step df currency) (iterrows df)
            (Some (historical_data st, O)) with
    | Some (data, valid_count) =>
        HistoricalState data (missing_columns st)
          (<[currency := valid_count]> (currencies_found st)) (warned st)
          false
    | None =>
        HistoricalState (historical_data st) (missing_columns st)
          (currencies_found st) (warned st) true
    end.

Definition historical_loop (df : DataFrame) : historical_state :=
  fold_left (historical_step df) TARGET_CURRENCIES
    (HistoricalState [] [] ∅ [] false).

Definition parse_historical_rates_run (csv : csv_file)
  : list warning * result DataFrame :=
  match csv with
  | Missing => ([], Raise FileNotFoundError)
  | Exists (Frame df) =>
      match rows df with
      | [] => ([], Raise (ValueError CsvNoDataRows))
      | _ :: _ =>
          if negb (has_column df "Date")
          then ([], Raise (ValueError MissingDateColumn))
          else
            let st := historical_loop df in
            if interrupted st then (warned st, Raise RuntimeError)
            else
              let out := (warned st
                          ++ report MissingCurrencies (missing_columns st)) in
              match historical_data st with
              | [] => (out, Raise (ValueError NoValidHistoricalRates))
              | _ :: _ =>
                  (out, Ok (DataFrame_of_records (historical_data st)))
              end
      end
  | Exists r => ([], Raise (read_failure r))
  end.

Definition parse_historical_rates (csv : csv_file) : result DataFrame :=
  (parse_historical_rates_run csv).2.

(** *** [calculate_mean_rates] *)

(** The number a cell of the [rate] column stands for in [mean], when the
    column has a numeric dtype: float64, int64 or uint64, bool. *)
Definition rate_number (v : cell) : option float :=
  match v with
  | CFloat f => Some f
  | CInt z => if int64_or_uint64 z then Some (float_of_Z z) else None
  | CBool b => Some (if b then 1%float else 0%float)
  | CStr _ => None
  end.

(** [df.groupby('currency')['rate']], as far as the script reads it: the
    groups whose label is a text, each with its rates in row order.  Rows
    whose label is NaN are in no group, as pandas has it.  A group whose
    label is not a text is a key of pandas' dictionary that no text
    equals; it is left out here.  [None]: a row of a group holds a rate
    that is not of a numeric dtype, and [mean] raises. *)
Definition group_step (df : DataFrame)
    (groups : option (gmap string (list float))) (row : list cell)
  : option (gmap string (list float)) :=
  match groups with
  | None => None
  | Some g =>
      let label := row_get df row "currency" in
      if isna label then Some g
      else
        match rate_number (row_get df row "rate") with
        | Some x =>
            match label with
            | CStr k => Some (<[k := default [] (g !! k) ++ [x]]> g)
            | _ => Some g
            end
        | None => None
        end
  end.

Definition groupby_currency_rate (df : DataFrame)
  : option (gmap string (list float)) :=
  fold_left (group_step df) (rows df) (Some ∅).

Definition calculate_mean_rates_run (df : DataFrame)
  : list warning * result (gmap string float) :=
  if df_empty df then ([], Raise (ValueError FrameEmpty))
  else if negb (has_column df "currency") || negb (has_column df "rate")
  then ([], Raise (ValueError FrameMissingColumns))
  else
    match groupby_currency_rate df with
    | Some groups =>
        let mean_rates : gmap string float := series_mean <$> groups in
        let missing_means :=
          filter (fun curr => mean_rates !! curr = None) TARGET_CURRENCIES in
        (report NoHistoricalData missing_means, Ok mean_rates)
    | None => ([], Raise RuntimeError)
    end.

Definition calculate_mean_rates (df : DataFrame)
  : result (gmap string float) :=
  (calculate_mean_rates_run df).2.

End Pipeline.

(** *** [create_html_table] *)

Record table_row := TableRow {
  currency_code : string;
  rate_cell : string;
  mean_cell : string
}.

Definition render (x : option float) : string :=
  match x with
  | Some f => if truthy x then format_4f f else "N/A"
  | None => "N/A"
  end.

(** [table_data], the records that [to_html] turns into table rows, one
    [<tr>] each; the page around them is fixed text. *)
Definition create_html_table (daily_rates mean_rates : gmap string float)
  : list table_row :=
  fold_left
    (fun table_data currency =>
       let daily_rate := daily_rates !! currency in
       let mean_rate := mean_rates !! currency in
       table_data ++ [TableRow currency (render daily_rate) (render mean_rate)])
    TARGET_CURRENCIES [].

(** ** What each loop keeps, cell by cell

    The two functions below restate the body of each loop for one cell;
    the lemmas [daily_loop_lookup] and [historical_loop_data] show that the
    loops compute them. *)

(** The rate the daily loop stores under [currency], if any. *)
Definition daily_rate_of (df : DataFrame) (first : list cell)
    (currency : string) : option float :=
  if has_column df currency then
    let rate_value := row_get df first currency in
    if not_available rate_value then None else py_float rate_value
  else None.

(** The turn of the daily loop for [currency] ends in an exception that
    the loop does not catch. *)
Definition daily_raises (df : DataFrame) (first : list cell)
    (currency : string) : bool :=
  has_column df currency
  && negb (not_available (row_get df first currency))
  && float_overflow (row_get df first currency).

(** The same for the historical loop, at the row [row]. *)
Definition historical_raises (df : DataFrame) (currency : string)
    (row : list cell) : bool :=
  negb (not_available (row_get df row currency))
  && float_overflow (row_get df row currency).

(** The column of [currency] is in the table and one of its cells raises
    such an exception. *)
Definition column_raises (df : DataFrame) (currency : string) : bool :=
  has_column df currency
  && existsb (historical_raises df currency) (iterrows df).

(** The record the historical loop appends for [currency] at [row], if any. *)
Definition kept (float_repr : float -> string) (df : DataFrame)
    (currency : string) (row : list cell) : option observation :=
  let rate_value := row_get df row currency in
  if not_available rate_value then None
  else
    match py_float rate_value with
    | Some rate_float =>
        if (rate_float <=? 0)%float then None
        else Some (Observation (py_str float_repr (row_get df row "Date"))
                     currency rate_float)
    | None => None
    end.

(** The records of one currency, all rows in order. *)
Definition kept_column (float_repr : float -> string) (df : DataFrame)
    (rws : list (list cell)) (currency : string) : list observation :=
  if has_column df currency then omap (kept float_repr df currency) rws
  else [].

(** The rows of a long-format frame that carry the label [currency]. *)
Definition rows_of_currency (currency : string) (df : DataFrame)
  : list (list cell) :=
  filter (fun row => eq_text (row_get df row "currency") currency) (rows df).

(** The rates recorded for one currency, in sequence order, and the frame
    that [pd.DataFrame] builds from a list of records that is not empty. *)
Definition rates_of (c : string) (data : list observation) : list float :=
  rate <$> filter (fun o => currency o = c) data.

Definition long_frame (data : list observation) : DataFrame :=
  {| columns := ["date"; "currency"; "rate"]; rows := map record_row data |}.

(** ** The mean of a group

    [Series.mean] is pandas' own.  The specification compares it with the sum of
    the rates divided by their count; pandas' routine for the mean of a
    group leaves NaN out and adds with a running compensation. *)

(** The sum of the rates from the left, divided by their count. *)
Definition naive_mean (l : list float) : float :=
  (fold_left PrimFloat.add l 0 / float_of_Z (Z.of_nat (length l)))%float.

(** The variables of pandas' loop: [nobs], [sumx], [compensation]. *)
Record mean_state := MeanState {
  nobs : Z;
  sumx : float;
  compensation : float
}.

Definition group_mean_step (st : mean_state) (val : float) : mean_state :=
  if is_nan val then st
  else
    let y := (val - compensation st)%float in
    let t := (sumx st + y)%float in
    let c := (t - sumx st - y)%float in
    MeanState (nobs st + 1) t (if is_nan c then 0%float else c).

Definition group_mean (l : list float) : float :=
  let st := fold_left group_mean_step l (MeanState 0 0 0) in
  if nobs st =? 0 then nan else (sumx st / float_of_Z (nobs st))%float.

(** [math.isclose(a, b, rel_tol=1e-09)]: the test of a relative
    tolerance. *)
Definition is_infinite (x : float) : bool :=
  (x =? infinity)%float || (x =? neg_infinity)%float.

Definition isclose (a b : float) : bool :=
  if (a =? b)%float then true
  else if is_infinite a || is_infinite b then false
  else
    let diff := abs (b - a) in
    ((diff <=? abs (0x1.12e0be826d695p-30 * b))
     || (diff <=? abs (0x1.12e0be826d695p-30 * a)))%float.

(** ** Tables and runtime instances used in examples *)

(** [str] on the only float a text column holds. *)
Definition repr_nan : float -> string := fun _ => "nan".

Definition daily_sek_negative : DataFrame :=
  {| columns := ["USD"; "SEK"];
     rows := [[CFloat 1.0850; CFloat (-0.5)]] |}.

(** Example 4 of the specification. *)
Definition historical_sek_negative : DataFrame :=
  {| columns := ["Date"; "SEK"];
     rows := [[CStr "2024-01-01"; CFloat (-0.5)];
              [CStr "2024-01-02"; CFloat 2.0]] |}.

(** Examples 1 and 3 of the specification. *)
Definition daily_example_1 : DataFrame :=
  {| columns := ["USD"; "SEK"; "GBP"; "JPY"];
     rows := [[CFloat 1.0850; CFloat 11.20; CFloat 0.8600; CFloat 157.30]] |}.

Definition historical_example_3 : DataFrame :=
  {| columns := ["Date"; "USD"];
     rows := [[CStr "2024-01-01"; CFloat 1.08];
              [CStr "2024-01-02"; CFloat 1.10]] |}.

Definition daily_usd_zero : DataFrame :=
  {| columns := ["USD"]; rows := [[CInt 0]] |}.

(** Example 2 of the specification, as [read_csv] delivers it (the field
    [N/A] read as NaN), and as a frame whose cells are the texts of the
    fields. *)
Definition daily_example_2 : DataFrame :=
  {| columns := ["USD"; "SEK"; "GBP"; "JPY"];
     rows := [[CFloat 1.0850; CFloat nan; CFloat 0.8600; CStr "abc"]] |}.

Definition daily_example_2_text : DataFrame :=
  {| columns := ["USD"; "SEK"; "GBP"; "JPY"];
     rows := [[CStr "1.0850"; CStr "N/A"; CStr "0.8600"; CStr "abc"]] |}.

Definition daily_no_jpy : DataFrame :=
  {| columns := ["USD"; "SEK"; "GBP"];
     rows := [[CFloat 1.0850; CFloat 11.20; CFloat 0.8600]] |}.

Definition historical_no_date : DataFrame :=
  {| columns := ["USD"; "SEK"; "GBP"; "JPY"];
     rows := [[CFloat 1.08; CFloat 11.2; CFloat 0.86; CFloat 157.3]] |}.

Definition historical_nan_text : DataFrame :=
  {| columns := ["Date"; "USD"];
     rows := [[CStr "2024-01-01"; CStr "NAN"];
              [CStr "2024-01-02"; CStr "abc"]] |}.

(** First rows in which one cell is an integer too large for a float. *)
Definition daily_sek_huge : DataFrame :=
  {| columns := ["USD"; "SEK"; "GBP"];
     rows := [[CFloat 1.5; CInt (10 ^ 400); CFloat 0.86]] |}.

Definition daily_gbp_huge : DataFrame :=
  {| columns := ["USD"; "SEK"; "GBP"];
     rows := [[CFloat 1.0850; CFloat (-0.5); CInt (10 ^ 400)]] |}.

(** Three dates of two currencies, with a missing field and a negative
    rate. *)
Definition historical_two_currencies : DataFrame :=
  {| columns := ["Date"; "SEK"; "USD"];
     rows := [[CStr "2024-01-01"; CFloat 11.2; CFloat 1.08];
              [CStr "2024-01-02"; CFloat nan; CFloat 1.10];
              [CStr "2024-01-03"; CFloat 11.3; CFloat (-1)]] |}.

(** A column in which one field is the text [NAN]. *)
Definition historical_nan_and_two : DataFrame :=
  {| columns := ["Date"; "USD"];
     rows := [[CStr "2024-01-01"; CStr "NAN"];
              [CStr "2024-01-02"; CStr "2.0"]] |}.

Definition historical_usd_huge : DataFrame :=
  {| columns := ["Date"; "USD"; "SEK"];
     rows := [[CStr "2024-01-01"; CInt 2; CFloat 1.5];
              [CStr "2024-01-02"; CInt (10 ^ 400); CFloat 2.5]] |}.

(** ** The rest of the script: the page, the file, [main] *)

(** *** The page that [create_html_table] returns *)

(** The double quote and the line feed. *)
Definition dq : string := String "034"%char EmptyString.
Definition nl : string := String "010"%char EmptyString.

(** The lines of the page before the table, as the f-string has them. *)
Definition page_head_lines : list string :=
  ["<!DOCTYPE html>";
   "<html lang=" +:+ dq +:+ "en" +:+ dq +:+ ">";
   "<head>";
   "    <meta charset=" +:+ dq +:+ "UTF-8" +:+ dq +:+ ">";
   "    <meta name=" +:+ dq +:+ "viewport" +:+ dq +:+ " content=" +:+ dq
     +:+ "width=device-width, initial-scale=1.0" +:+ dq +:+ ">";
   "    <title>Exchange Rates Report</title>";
   "    <style>";
   "        body {";
   "            font-family: 'Segoe UI', Tahoma, Geneva, Verdana, sans-serif;";
   "            max-width: 800px;";
   "            margin: 50px auto;";
   "            padding: 20px;";
   "            background-color: #f5f5f5;";
   "        }";
   "        h1 {";
   "            color: #333;";
   "            text-align: center;";
   "            margin-bottom: 30px;";
   "        }";
   "        table {";
   "            width: 100%;";
   "            border-collapse: collapse;";
   "            background-color: white;";
   "            box-shadow: 0 2px 4px rgba(0, 0, 0, 0.1);";
   "        }";
   "        th {";
   "            background-color: #4CAF50;";
   "            color: white;";
   "            padding: 12px;";
   "            text-align: left;";
   "            font-weight: bold;";
   "        }";
   "        td {";
   "            padding: 10px 12px;";
   "            border-bottom: 1px solid #ddd;";
   "        }";
   "        tr:hover {";
   "            background-color: #f5f5f5;";
   "        }";
   "        .footer {";
   "            text-align: center;";
   "            margin-top: 20px;";
   "            color: #666;";
   "            font-size: 14px;";
   "        }";
   "    </style>";
   "</head>";
   "<body>";
   "    <h1>Exchange Rates Report</h1>"].

(** The lines after the table. *)
Definition page_tail_lines : list string :=
  ["    <div class=" +:+ dq +:+ "footer" +:+ dq +:+ ">";
   "        <p>Exchange rates relative to EUR | "
     +:+ "Source: European Central Bank</p>";
   "    </div>";
   "</body>";
   "</html>"].

Definition join_lines (lines : list string) : string :=
  fold_right (fun line rest => line +:+ nl +:+ rest) "" lines.

Definition page_head : string := join_lines page_head_lines +:+ "    ".
Definition page_tail : string := nl +:+ join_lines page_tail_lines.

(** The f-string: the fixed text around
    [df.to_html(index=False, border=0, classes='rate-table')], which is
    pandas' rendering of [table_data] and a parameter here. *)
Definition html_page (to_html : list table_row -> string)
    (daily_rates mean_rates : gmap string float) : string :=
  page_head +:+ to_html (create_html_table daily_rates mean_rates)
  +:+ page_tail.

(** *** [save_html_report] *)

(** [not html_content or not html_content.strip()] *)
Definition blank (html_content : string) : bool :=
  match strip unicode_space (code_points html_content) with
  | [] => true
  | _ :: _ => false
  end.

(** What the directory, [open] and [write] do for the output path. *)
Inductive file_system :=
| Denied       (* a step raises PermissionError *)
| Failing      (* a step raises another OSError *)
| Broken       (* a step raises any other exception *)
| Vanishing    (* the write returns, the file does not exist afterwards *)
| Writable.

Inductive save_exn :=
| SaveValueError        (* "Cannot save empty HTML content" *)
| SavePermissionError
| SaveIOError
| SaveRuntimeError.

(** [Saved content]: the function returned and the file holds [content]. *)
Inductive save_result :=
| Saved (content : string)
| NotSaved (e : save_exn).

Definition save_html_report (html_content : string) (fs : file_system)
  : save_result :=
  if blank html_content then NotSaved SaveValueError
  else
    match fs with
    | Denied => NotSaved SavePermissionError
    | Failing => NotSaved SaveIOError
    | Vanishing => NotSaved SaveIOError
    | Broken => NotSaved SaveRuntimeError
    | Writable => Saved html_content
    end.

(** *** [main] *)

Inductive main_failure :=
| InputsNotFound (missing_files : list string)
| DailyFailure (e : exn)
| HistoricalFailure (e : exn)
| MeanFailure (e : exn)
| NoExchangeRateData    (* "No exchange rate data found in either ..." *)
| SaveFailure (e : save_exn).

(** [Completed missing_all page]: the currencies reported without data
    and the page saved. *)
Inductive main_outcome :=
| Completed (missing_all : list string) (page : string)
| Failed (f : main_failure).

Section Main.

Variable float_repr : float -> string.
Variable series_mean : list float -> float.
Variable to_html : list table_row -> string.

Definition is_missing (csv : csv_file) : bool :=
  match csv with Missing => true | Exists _ => false end.

Definition main_run (daily_csv historical_csv : csv_file)
    (fs : file_system) : main_outcome :=
  let missing_files :=
    (if is_missing daily_csv then ["eurofxref.csv"] else [])
    ++ (if is_missing historical_csv then ["eurofxref-hist.csv"] else []) in
  match missing_files with
  | _ :: _ => Failed (InputsNotFound missing_files)
  | [] =>
      match parse_daily_rates daily_csv with
      | Raise e => Failed (DailyFailure e)
      | Ok daily_rates =>
          match parse_historical_rates float_repr historical_csv with
          | Raise e => Failed (HistoricalFailure e)
          | Ok historical_df =>
              match calculate_mean_rates series_mean historical_df with
              | Raise e => Failed (MeanFailure e)
              | Ok mean_rates =>
                  let missing_all :=
                    filter (fun curr => daily_rates !! curr = None
                                        /\ mean_rates !! curr = None)
                      TARGET_CURRENCIES in
                  if decide (size daily_rates = O /\ size mean_rates = O)
                  then Failed NoExchangeRateData
                  else
                    let html_content :=
                      html_page to_html daily_rates mean_rates in
                    match save_html_report html_content fs with
                    | NotSaved e => Failed (SaveFailure e)
                    | Saved page => Completed missing_all page
                    end
              end
          end
      end
  end.

(** The exit code. *)
Definition main (daily_csv historical_csv : csv_file) (fs : file_system)
  : Z :=
  match main_run daily_csv historical_csv fs with
  | Completed _ _ => 0
  | Failed _ => 1
  end.

End Main.

(** ** More characterisations used in statements *)


(** A decimal numeral with four digits after the point. *)
Definition four_decimals (s : string) : Prop :=
  exists (neg : bool) (k : Z) (frac : string),
    0 <= k
    /\ s = (if neg then "-" else "") +:+ pretty k +:+ "." +:+ frac
    /\ String.length frac = 4%nat
    /\ forallb is_digit (list_ascii_of_string frac) = true.

Definition daily_two_rows : DataFrame :=
  {| columns := ["USD"; "CHF"; "SEK"];
     rows := [[CFloat 1.0850; CFloat 0.95; CStr "abc"];
              [CFloat 9.9; CFloat 9.9; CFloat 9.9]] |}.

Definition historical_blank_usd : DataFrame :=
  {| columns := ["Date"; "USD"; "SEK"];
     rows := [[CStr "2024-01-01"; CFloat nan; CFloat 11.2];
              [CStr "2024-01-01"; CStr "N/A"; CFloat 11.3];
              [CStr "2024-01-03"; CFloat (-1); CStr "abc"]] |}.

Definition historical_all_blank : DataFrame :=
  {| columns := ["Date"; "USD"];
     rows := [[CStr "2024-01-01"; CFloat nan]] |}.



(** A stand-in for [to_html] in examples: the currency codes, one a line. *)
Definition codes_only (table_data : list table_row) : string :=
  join_lines (currency_code <$> table_data).

(** ** Facts about binary64 comparisons *)

Lemma Prim2SF_zero : Prim2SF 0%float = S754_zero false.
Proof. reflexivity. Qed.

Lemma SFcompare_refl (x : spec_float) :
  x <> S754_nan -> SFcompare x x = Some Eq.
Proof.
  destruct x as [s|s| |s m e]; intros Hx; try congruence; simpl.
  - reflexivity.
  - destruct s; reflexivity.
  - rewrite Z.compare_refl.
    assert (Hm : Pos.compare_cont Eq m m = Eq) by apply Pos.compare_refl.
    rewrite Hm. destruct s; reflexivity.
Qed.

Lemma is_nan_Prim2SF (f : float) :
  is_nan f = true <-> Prim2SF f = S754_nan.
Proof.
  unfold is_nan. rewrite FloatAxioms.eqb_spec. unfold SFeqb. split.
  - intros H. destruct (Prim2SF f) eqn:E; try reflexivity;
      rewrite SFcompare_refl in H by discriminate; discriminate.
  - intros ->. reflexivity.
Qed.

(** NaN fails the test [x <= 0]. *)
Lemma nan_not_le_zero (f : float) :
  is_nan f = true -> (f <=? 0)%float = false.
Proof.
  rewrite is_nan_Prim2SF, leb_spec. intros ->. reflexivity.
Qed.

(** A float that fails the test [x <= 0] is positive or NaN. *)
Lemma not_le_zero (f : float) :
  (f <=? 0)%float = false -> (0 <? f)%float = true \/ is_nan f = true.
Proof.
  rewrite leb_spec, ltb_spec, is_nan_Prim2SF, Prim2SF_zero.
  destruct (Prim2SF f) as [s|s| |s m e]; cbn; try destruct s; cbn; auto;
    discriminate.
Qed.

(** A float that passes the test [x <= 0] is negative or zero. *)
Lemma le_zero_cases (f : float) :
  (f <=? 0)%float = true -> (f <? 0)%float = true \/ (f =? 0)%float = true.
Proof.
  rewrite leb_spec, ltb_spec, FloatAxioms.eqb_spec, Prim2SF_zero.
  destruct (Prim2SF f) as [s|s| |s m e]; cbn; try destruct s; cbn; auto.
Qed.

(** A float that is not NaN and fails the test [x <= 0] is positive. *)
Lemma positive_of_not_le_zero (f : float) :
  (f <=? 0)%float = false -> is_nan f = false -> (0 <? f)%float = true.
Proof.
  intros H N. destruct (not_le_zero f H) as [P|P]; [exact P | congruence].
Qed.

(** ** Cells *)

Lemma float_of_blank : float_of_string "" = None.
Proof. reflexivity. Qed.

Lemma float_of_not_available : float_of_string "N/A" = None.
Proof. reflexivity. Qed.

(** A cell that [float] reads as a number [<= 0] passes the blank test. *)
Lemma nonpositive_is_available (v : cell) (r : float) :
  py_float v = Some r -> (r <=? 0)%float = true -> not_available v = false.
Proof.
  intros Hv Hr. unfold not_available.
  destruct v as [f|z|b|s]; try reflexivity.
  - injection Hv as ->. cbn [isna eq_text orb].
    destruct (is_nan r) eqn:E; [|reflexivity].
    apply nan_not_le_zero in E. congruence.
  - cbn [isna eq_text orb]. unfold py_float, float_call in Hv.
    destruct (String.eqb_spec s "") as [->|_].
    { rewrite float_of_blank in Hv. discriminate. }
    destruct (String.eqb_spec s "N/A") as [->|_]; [|reflexivity].
    rewrite float_of_not_available in Hv. discriminate.
Qed.

(** ** The daily loop *)

Lemma daily_step_raised df first st a :
  raised (daily_step df first st a) = raised st || daily_raises df first a.
Proof.
  unfold daily_step, daily_raises, float_overflow.
  destruct (raised st) eqn:E; [exact E|].
  destruct (has_column df a); [|reflexivity].
  destruct (not_available _); [reflexivity|].
  by destruct (float_call _).
Qed.

Lemma daily_fold_raises df first cs : forall st,
  raised (fold_left (daily_step df first) cs st)
  = raised st || existsb (daily_raises df first) cs.
Proof.
  induction cs as [|a cs IH]; intros st; cbn [fold_left existsb].
  - by rewrite orb_false_r.
  - by rewrite IH, daily_step_raised, orb_assoc.
Qed.

(** The loop is left by an exception exactly when the first-row cell of
    a target currency is an integer too large for a float. *)
Lemma daily_loop_raised df first :
  raised (daily_loop df first)
  = existsb (daily_raises df first) TARGET_CURRENCIES.
Proof. unfold daily_loop. by rewrite daily_fold_raises. Qed.

(** A turn that no exception leaves, by the value of [float]. *)
Lemma daily_step_completed df first st a :
  raised (daily_step df first st a) = false ->
  daily_step df first st a
  = if has_column df a then
      match daily_rate_of df first a with
      | Some rate_float =>
          DailyState (<[a := rate_float]> (daily_rates st))
            (missing_currencies st) (invalid_currencies st)
            (if (rate_float <=? 0)%float
             then printed st ++ [NonPositiveRate a rate_float]
             else printed st)
            false
      | None =>
          DailyState (daily_rates st) (missing_currencies st)
            (invalid_currencies st ++ [a])
            (if not_available (row_get df first a) then printed st
             else printed st ++ [InvalidRateValue a (row_get df first a)])
            false
      end
    else
      DailyState (daily_rates st) (missing_currencies st ++ [a])
        (invalid_currencies st) (printed st) false.
Proof.
  unfold daily_step, daily_rate_of, py_float.
  destruct (raised st) eqn:E.
  { intros H. rewrite E in H. discriminate. }
  destruct (has_column df a); [|reflexivity].
  destruct (not_available _); [reflexivity|].
  destruct (float_call _); [reflexivity | reflexivity | discriminate].
Qed.

Lemma daily_fold_step df first cs st a :
  raised (fold_left (daily_step df first) cs (daily_step df first st a))
    = false ->
  raised (daily_step df first st a) = false.
Proof.
  rewrite daily_fold_raises. intros H. by apply orb_false_elim in H as [H _].
Qed.

Lemma daily_step_lookup df first st a c :
  raised (daily_step df first st a) = false ->
  daily_rates (daily_step df first st a) !! c =
    if decide (a = c)
    then match daily_rate_of df first c with
         | Some r => Some r
         | None => daily_rates st !! c
         end
    else daily_rates st !! c.
Proof.
  intros H. rewrite (daily_step_completed _ _ _ _ H).
  destruct (decide (a = c)) as [->|Hne].
  - destruct (has_column df c) eqn:E.
    + destruct (daily_rate_of df first c); [apply lookup_insert_eq|];
        reflexivity.
    + unfold daily_rate_of. by rewrite E.
  - destruct (has_column df a); [|reflexivity].
    destruct (daily_rate_of df first a); [|reflexivity].
    by apply lookup_insert_ne.
Qed.

Lemma daily_fold_lookup df first cs : forall st c,
  raised (fold_left (daily_step df first) cs st) = false ->
  daily_rates (fold_left (daily_step df first) cs st) !! c =
    match (if bool_decide (c ∈ cs) then daily_rate_of df first c else None) with
    | Some r => Some r
    | None => daily_rates st !! c
    end.
Proof.
  induction cs as [|a cs IH]; intros st c H; cbn [fold_left] in *.
  - reflexivity.
  - rewrite IH by exact H.
    rewrite daily_step_lookup by (by eapply daily_fold_step).
    destruct (decide (a = c)) as [->|Hne].
    + rewrite (bool_decide_eq_true_2 (c ∈ c :: cs)) by left.
      destruct (bool_decide (c ∈ cs)); destruct (daily_rate_of df first c);
        reflexivity.
    + assert (bool_decide (c ∈ a :: cs) = bool_decide (c ∈ cs)) as ->.
      { apply bool_decide_ext. rewrite elem_of_cons.
        split; [intros [?|?]; [congruence | assumption] | by right]. }
      reflexivity.
Qed.

(** After a loop that ran to its end, the dictionary holds exactly the
    usable first-row cells of the target currencies. *)
Lemma daily_loop_lookup df first c :
  raised (daily_loop df first) = false ->
  daily_rates (daily_loop df first) !! c =
    if bool_decide (c ∈ TARGET_CURRENCIES) then daily_rate_of df first c
    else None.
Proof.
  intros H. unfold daily_loop in *. rewrite daily_fold_lookup by exact H.
  cbn [daily_rates]. rewrite lookup_empty.
  destruct (bool_decide (c ∈ TARGET_CURRENCIES));
    [destruct (daily_rate_of df first c)|]; reflexivity.
Qed.

Lemma daily_step_printed df first st a w :
  w ∈ printed st -> w ∈ printed (daily_step df first st a).
Proof.
  intros Hw. unfold daily_step.
  destruct (raised st); [exact Hw|].
  destruct (has_column df a); [|exact Hw].
  destruct (not_available _); [exact Hw|].
  destruct (float_call _); cbn [printed].
  - destruct (_ <=? _)%float; [apply elem_of_app; by left | exact Hw].
  - apply elem_of_app. by left.
  - exact Hw.
Qed.

Lemma daily_fold_printed df first cs : forall st w,
  w ∈ printed st -> w ∈ printed (fold_left (daily_step df first) cs st).
Proof.
  induction cs as [|a cs IH]; intros st w Hw; cbn [fold_left]; [exact Hw|].
  by apply IH, daily_step_printed.
Qed.

Lemma daily_fold_warns df first cs : forall st c r,
  raised (fold_left (daily_step df first) cs st) = false ->
  c ∈ cs -> daily_rate_of df first c = Some r -> (r <=? 0)%float = true ->
  NonPositiveRate c r ∈ printed (fold_left (daily_step df first) cs st).
Proof.
  induction cs as [|a cs IH]; intros st c r H Hc Hr Hle; cbn [fold_left] in *.
  - by apply elem_of_nil in Hc.
  - destruct (decide (a = c)) as [->|Hne].
    + apply daily_fold_printed.
      rewrite daily_step_completed by (by eapply daily_fold_step).
      assert (E : has_column df c = true).
      { unfold daily_rate_of in Hr. by destruct (has_column df c). }
      rewrite E, Hr, Hle. cbn [printed]. apply elem_of_app. right. by left.
    + apply IH; try assumption.
      apply elem_of_cons in Hc as [->|Hc]; [congruence | exact Hc].
Qed.

(** The shape of a run on a table that has a first row. *)
Lemma parse_daily_rates_frame df first rest :
  rows df = first :: rest ->
  parse_daily_rates (Exists (Frame df)) =
    if raised (daily_loop df first) then Raise RuntimeError
    else if decide (size (daily_rates (daily_loop df first)) = O)
    then Raise (ValueError NoValidRates)
    else Ok (daily_rates (daily_loop df first)).
Proof.
  intros H. unfold parse_daily_rates, parse_daily_rates_run. rewrite H.
  destruct (raised _); [reflexivity|]. destruct (decide _); reflexivity.
Qed.

(** A run that returns a dictionary. *)
Lemma parse_daily_rates_run_ok csv w m :
  parse_daily_rates_run csv = (w, Ok m) ->
  exists df first rest,
    csv = Exists (Frame df) /\ rows df = first :: rest
    /\ raised (daily_loop df first) = false
    /\ m = daily_rates (daily_loop df first) /\ m <> ∅
    /\ w = printed (daily_loop df first)
           ++ report MissingColumns (missing_currencies (daily_loop df first))
           ++ report InvalidValues (invalid_currencies (daily_loop df first)).
Proof.
  unfold parse_daily_rates_run.
  destruct csv as [|[| | | |df]]; try discriminate.
  destruct (rows df) as [|first rest] eqn:R; [discriminate|].
  destruct (raised (daily_loop df first)) eqn:E; [discriminate|].
  destruct (decide _) as [|N]; [discriminate|].
  intros [= <- <-]. exists df, first, rest.
  repeat split; try reflexivity; try assumption.
  intros Z. apply N. by rewrite Z, map_size_empty.
Qed.

Lemma parse_daily_rates_ok csv m :
  parse_daily_rates csv = Ok m ->
  exists df first rest,
    csv = Exists (Frame df) /\ rows df = first :: rest
    /\ raised (daily_loop df first) = false
    /\ m = daily_rates (daily_loop df first) /\ m <> ∅.
Proof.
  unfold parse_daily_rates.
  destruct (parse_daily_rates_run csv) as [w r] eqn:E. cbn [snd].
  intros ->. apply parse_daily_rates_run_ok in E
    as (df & first & rest & ? & ? & ? & ? & ? & _).
  by exists df, first, rest.
Qed.

Lemma daily_loop_empty df first :
  raised (daily_loop df first) = false ->
  daily_rates (daily_loop df first) = ∅ <->
  forall c, c ∈ TARGET_CURRENCIES -> daily_rate_of df first c = None.
Proof.
  intros R. split.
  - intros H c Hc.
    assert (L := daily_loop_lookup df first c R).
    rewrite H, lookup_empty, bool_decide_eq_true_2 in L by exact Hc.
    by symmetry.
  - intros H. apply map_eq. intros c.
    rewrite daily_loop_lookup, lookup_empty by exact R.
    destruct (bool_decide (c ∈ TARGET_CURRENCIES)) eqn:E; [|reflexivity].
    apply H. by apply bool_decide_eq_true in E.
Qed.

(** ** The historical loop *)

Section Historical.

Variable float_repr : float -> string.

Lemma row_step_kept df c data n row :
  row_step float_repr df c (Some (data, n)) row =
    if historical_raises df c row then None
    else match kept float_repr df c row with
         | Some o => Some (data ++ [o], S n)
         | None => Some (data, n)
         end.
Proof.
  unfold row_step, kept, historical_raises, float_overflow, py_float.
  destruct (not_available _); [reflexivity|]. cbn [negb andb].
  destruct (float_call _); [|reflexivity|reflexivity].
  destruct (_ <=? _)%float; reflexivity.
Qed.

Lemma row_fold_interrupted df c rws :
  fold_left (row_step float_repr df c) rws None = None.
Proof. induction rws as [|row rws IH]; [reflexivity | exact IH]. Qed.

Lemma row_fold_kept df c rws : forall data n,
  fold_left (row_step float_repr df c) rws (Some (data, n)) =
    if existsb (historical_raises df c) rws then None
    else Some (data ++ omap (kept float_repr df c) rws,
               (n + length (omap (kept float_repr df c) rws))%nat).
Proof.
  induction rws as [|row rws IH]; intros data n.
  - cbn. by rewrite app_nil_r, Nat.add_0_r.
  - cbn [fold_left existsb omap list_omap].
    change (list_omap _ _ ?f rws) with (omap f rws).
    rewrite row_step_kept.
    destruct (historical_raises df c row); [apply row_fold_interrupted|].
    cbn [orb]. destruct (kept float_repr df c row) as [o|].
    + rewrite IH. destruct (existsb _ rws); [reflexivity|].
      rewrite <- app_assoc. cbn [app length]. by rewrite Nat.add_succ_r.
    + apply IH.
Qed.

Lemma historical_step_interrupted df st c :
  interrupted (historical_step float_repr df st c)
  = interrupted st || column_raises df c.
Proof.
  unfold historical_step, column_raises.
  destruct (interrupted st) eqn:E; [exact E|].
  destruct (has_column df c); [|reflexivity].
  rewrite row_fold_kept. by destruct (existsb _ _).
Qed.

Lemma historical_fold_interrupted df cs : forall st,
  interrupted (fold_left (historical_step float_repr df) cs st)
  = interrupted st || existsb (column_raises df) cs.
Proof.
  induction cs as [|a cs IH]; intros st; cbn [fold_left existsb].
  - by rewrite orb_false_r.
  - by rewrite IH, historical_step_interrupted, orb_assoc.
Qed.

(** The loops are left by an exception exactly when a cell under a
    target currency is an integer too large for a float. *)
Lemma historical_loop_interrupted df :
  interrupted (historical_loop float_repr df)
  = existsb (column_raises df) TARGET_CURRENCIES.
Proof. unfold historical_loop. by rewrite historical_fold_interrupted. Qed.

Lemma historical_fold_step df cs st a :
  interrupted (fold_left (historical_step float_repr df) cs
                 (historical_step float_repr df st a)) = false ->
  interrupted (historical_step float_repr df st a) = false.
Proof.
  rewrite historical_fold_interrupted. intros H.
  by apply orb_false_elim in H as [H _].
Qed.

(** A turn of the outer loop that no exception leaves. *)
Lemma historical_step_completed df st c :
  interrupted (historical_step float_repr df st c) = false ->
  historical_step float_repr df st c
  = if has_column df c then
      HistoricalState
        (historical_data st ++ omap (kept float_repr df c) (iterrows df))
        (missing_columns st)
        (<[c := length (omap (kept float_repr df c) (iterrows df))]>
           (currencies_found st))
        (warned st) false
    else
      HistoricalState (historical_data st) (missing_columns st ++ [c])
        (currencies_found st) (warned st ++ [CurrencyNotFound c]) false.
Proof.
  intros H. assert (H' := H). rewrite historical_step_interrupted in H'.
  apply orb_false_elim in H' as [E R].
  unfold historical_step, column_raises in *. rewrite E.
  destruct (has_column df c); [|reflexivity].
  cbn [andb negb] in *. by rewrite row_fold_kept, R.
Qed.

Lemma historical_step_data df st c :
  interrupted (historical_step float_repr df st c) = false ->
  historical_data (historical_step float_repr df st c) =
    historical_data st ++ kept_column float_repr df (iterrows df) c.
Proof.
  intros H. rewrite (historical_step_completed _ _ _ H).
  unfold kept_column. destruct (has_column df c); cbn [historical_data].
  - reflexivity.
  - by rewrite app_nil_r.
Qed.

Lemma historical_fold_data df cs : forall st,
  interrupted (fold_left (historical_step float_repr df) cs st) = false ->
  historical_data (fold_left (historical_step float_repr df) cs st) =
    historical_data st
    ++ flat_map (kept_column float_repr df (iterrows df)) cs.
Proof.
  induction cs as [|c cs IH]; intros st H; cbn [fold_left flat_map] in *.
  - by rewrite app_nil_r.
  - rewrite IH by exact H.
    rewrite historical_step_data by (by eapply historical_fold_step).
    by rewrite <- app_assoc.
Qed.

(** The records gathered by the two nested loops: currency by currency
    in the order of [TARGET_CURRENCIES], and row by row within one. *)
Lemma historical_loop_data df :
  interrupted (historical_loop float_repr df) = false ->
  historical_data (historical_loop float_repr df) =
    flat_map (kept_column float_repr df (iterrows df)) TARGET_CURRENCIES.
Proof.
  intros H. unfold historical_loop in *. by rewrite historical_fold_data.
Qed.

(** The shape of a successful run. *)
Lemma parse_historical_rates_ok csv out :
  parse_historical_rates float_repr csv = Ok out ->
  exists df,
    csv = Exists (Frame df) /\ rows df <> [] /\ has_column df "Date" = true
    /\ interrupted (historical_loop float_repr df) = false
    /\ historical_data (historical_loop float_repr df) <> []
    /\ out = DataFrame_of_records (historical_data (historical_loop float_repr df)).
Proof.
  unfold parse_historical_rates, parse_historical_rates_run.
  destruct csv as [|[| | | |df]]; simpl; try discriminate.
  destruct (rows df) eqn:R; simpl; [discriminate|].
  destruct (has_column df "Date") eqn:D; simpl; [|discriminate].
  destruct (interrupted _) eqn:I; simpl; [discriminate|].
  destruct (historical_data _) eqn:H; simpl; [discriminate|].
  intros [= <-]. exists df. rewrite R, H. by repeat split.
Qed.

Lemma kept_currency df c row o :
  kept float_repr df c row = Some o -> currency o = c.
Proof.
  unfold kept. destruct (not_available _); [discriminate|].
  destruct (py_float _); [|discriminate].
  destruct (_ <=? _)%float; [discriminate|]. by intros [= <-].
Qed.

Lemma kept_rate df c row o :
  kept float_repr df c row = Some o ->
  not_available (row_get df row c) = false
  /\ py_float (row_get df row c) = Some (rate o)
  /\ (rate o <=? 0)%float = false.
Proof.
  unfold kept. destruct (not_available _); [discriminate|].
  destruct (py_float _) as [r|]; [|discriminate].
  destruct (r <=? 0)%float eqn:E; [discriminate|]. by intros [= <-].
Qed.

End Historical.

(** ** The mean aggregator on the extractor's frames *)

Lemma DataFrame_of_records_cons o data :
  DataFrame_of_records (o :: data) = long_frame (o :: data).
Proof. reflexivity. Qed.

Lemma group_step_record data0 g o :
  group_step (long_frame data0) (Some g) (record_row o) =
    Some (<[currency o := default [] (g !! currency o) ++ [rate o]]> g).
Proof. reflexivity. Qed.

Lemma group_fold_records data0 data : forall g,
  exists g',
    fold_left (group_step (long_frame data0)) (map record_row data) (Some g)
      = Some g'
    /\ forall c,
        g' !! c = match rates_of c data with
                  | [] => g !! c
                  | l => Some (default [] (g !! c) ++ l)
                  end.
Proof.
  induction data as [|o data IH]; intros g.
  - exists g. split; [reflexivity|]. intros c. reflexivity.
  - cbn [map fold_left]. rewrite group_step_record.
    destruct (IH (<[currency o := default [] (g !! currency o) ++ [rate o]]> g))
      as (g' & Hfold & Hg').
    exists g'. split; [exact Hfold|]. intros c. rewrite Hg'.
    unfold rates_of. rewrite filter_cons.
    destruct (decide (currency o = c)) as [<-|Hne].
    + rewrite lookup_insert_eq, fmap_cons.
      destruct (rate <$> filter (fun o0 => currency o0 = currency o) data);
        simpl; [reflexivity|].
      by rewrite <- app_assoc.
    + by rewrite lookup_insert_ne.
Qed.

Section Mean.

Variable series_mean : list float -> float.

(** On a frame made of records, the aggregator returns, and the mean of
    a currency is taken over its own rates, in sequence order; a currency
    without a record is not a key. *)
Lemma calculate_mean_rates_records o data :
  exists m,
    calculate_mean_rates series_mean (DataFrame_of_records (o :: data)) = Ok m
    /\ forall c,
        m !! c = match rates_of c (o :: data) with
                 | [] => None
                 | l => Some (series_mean l)
                 end.
Proof.
  rewrite DataFrame_of_records_cons.
  destruct (group_fold_records (o :: data) (o :: data) ∅) as (g & Hfold & Hg).
  exists (series_mean <$> g). split.
  - unfold calculate_mean_rates, calculate_mean_rates_run.
    unfold groupby_currency_rate.
    change (rows (long_frame (o :: data))) with (map record_row (o :: data)).
    rewrite Hfold. reflexivity.
  - intros c. rewrite lookup_fmap, Hg, lookup_empty.
    destruct (rates_of c (o :: data)); reflexivity.
Qed.

End Mean.

(** ** Records of one currency in the extractor's frame *)

Lemma rows_of_currency_long_frame c data0 data :
  filter (fun row => eq_text (row_get (long_frame data0) row "currency") c)
    (map record_row data)
  = record_row <$> filter (fun o => currency o = c) data.
Proof.
  induction data as [|o data IH]; [reflexivity|].
  cbn [map]. rewrite !filter_cons, IH.
  change (row_get (long_frame data0) (record_row o) "currency")
    with (CStr (currency o)).
  cbn [eq_text].
  destruct (String.eqb_spec (currency o) c) as [E|E];
    destruct (decide (currency o = c)) as [E'|E']; try congruence.
  - destruct (decide (Is_true true)) as [_|F]; [reflexivity|].
    exfalso. apply F. exact I.
  - destruct (decide (Is_true false)) as [F|_]; [destruct F | reflexivity].
Qed.

Section Chunks.

Variable float_repr : float -> string.

Lemma filter_kept_column df rws a c :
  filter (fun o => currency o = c) (kept_column float_repr df rws a) =
    if decide (a = c) then kept_column float_repr df rws a else [].
Proof.
  unfold kept_column. destruct (has_column df a).
  2:{ destruct (decide (a = c)); reflexivity. }
  induction rws as [|row rws IH]; simpl in *.
  - destruct (decide (a = c)); reflexivity.
  - destruct (kept float_repr df a row) as [o|] eqn:K; [|exact IH].
    change (list_omap (list cell) observation (kept float_repr df a) rws)
      with (omap (kept float_repr df a) rws).
    rewrite filter_cons, IH. apply kept_currency in K.
    destruct (decide (currency o = c)) as [E|E];
      destruct (decide (a = c)) as [E'|E']; congruence.
Qed.

Lemma filter_chunks df rws cs c :
  NoDup cs ->
  filter (fun o => currency o = c) (flat_map (kept_column float_repr df rws) cs)
  = if bool_decide (c ∈ cs) then kept_column float_repr df rws c else [].
Proof.
  induction 1 as [|a cs Ha Hcs IH]; [reflexivity|].
  cbn [flat_map]. rewrite filter_app, IH, filter_kept_column.
  destruct (decide (a = c)) as [->|Hne].
  - rewrite (bool_decide_eq_true_2 (c ∈ c :: cs)) by left.
    rewrite (bool_decide_eq_false_2 (c ∈ cs)) by exact Ha.
    apply app_nil_r.
  - assert (bool_decide (c ∈ a :: cs) = bool_decide (c ∈ cs)) as ->.
    { apply bool_decide_ext. rewrite elem_of_cons.
      split; [intros [?|?]; [congruence | assumption] | by right]. }
    reflexivity.
Qed.

Lemma kept_column_skip df pre row post c :
  kept float_repr df c row = None ->
  kept_column float_repr df (pre ++ row :: post) c =
    kept_column float_repr df (pre ++ post) c.
Proof.
  intros K. unfold kept_column. destruct (has_column df c); [|reflexivity].
  rewrite !omap_app. simpl. by rewrite K.
Qed.

End Chunks.

Lemma NoDup_TARGET_CURRENCIES : NoDup TARGET_CURRENCIES.
Proof.
  unfold TARGET_CURRENCIES.
  repeat (apply NoDup_cons_2;
          [rewrite ?elem_of_cons, elem_of_nil; intuition discriminate|]).
  apply NoDup_nil_2.
Qed.

(** ** The report table *)

Lemma table_fold (f : string -> table_row) cs : forall acc,
  fold_left (fun table_data currency => table_data ++ [f currency]) cs acc =
    acc ++ map f cs.
Proof.
  induction cs as [|c cs IH]; intros acc; simpl.
  - by rewrite app_nil_r.
  - by rewrite IH, <- app_assoc.
Qed.

(** The table has the row of each target currency, in the configured order. *)
Lemma create_html_table_rows (daily mean : gmap string float) :
  create_html_table daily mean =
    map (fun c => TableRow c (render (daily !! c)) (render (mean !! c)))
      TARGET_CURRENCIES.
Proof. unfold create_html_table. by rewrite table_fold. Qed.

(** A cell shows the rate when it is present and not zero. *)
Lemma render_nonzero (x : option float) (f : float) :
  x = Some f -> (f =? 0)%float = false -> render x = format_4f f.
Proof. intros -> H. unfold render, truthy. by rewrite H. Qed.

Lemma render_absent : render None = "N/A".
Proof. reflexivity. Qed.

Lemma render_zero (f : float) :
  (f =? 0)%float = true -> render (Some f) = "N/A".
Proof. intros H. unfold render, truthy. by rewrite H. Qed.


(** ** Pandas' mean of a group *)

Lemma group_mean_fold_app l1 l2 st :
  fold_left group_mean_step (l1 ++ l2) st
  = fold_left group_mean_step l2 (fold_left group_mean_step l1 st).
Proof. apply fold_left_app. Qed.

(** An observation that is NaN counts for nothing in the mean. *)
Lemma group_mean_skips_nan (l1 l2 : list float) (x : float) :
  is_nan x = true -> group_mean (l1 ++ x :: l2) = group_mean (l1 ++ l2).
Proof.
  intros H.
  assert (S : forall st, group_mean_step st x = st)
    by (intros st; unfold group_mean_step; by rewrite H).
  unfold group_mean. rewrite !group_mean_fold_app.
  cbn [fold_left]. by rewrite S.
Qed.

(** ** Theorems *)

Section Claims.

Variable float_repr : float -> string.
Variable series_mean : list float -> float.

(** C1. A first-row cell of a target currency that [float] reads as a
    number [<= 0] is stored in the daily dictionary, and a warning is
    printed: the extractor returns such a dictionary unless the first-row
    cell of a target currency is an integer too large for a float, in
    which case it ends in [RuntimeError] and returns no dictionary.  In
    the historical table a cell that reads as a number [<= 0] yields no
    record: the records of that currency, and the mean taken over them,
    are those of the other rows. *)
Theorem nonpositive_rate_asymmetry (c : string) (r : float) :
  c ∈ TARGET_CURRENCIES -> (r <=? 0)%float = true ->
  (forall df first rest,
      rows df = first :: rest -> has_column df c = true ->
      py_float (row_get df first c) = Some r ->
      (existsb (daily_raises df first) TARGET_CURRENCIES = false ->
       exists w m,
         parse_daily_rates_run (Exists (Frame df)) = (w, Ok m)
         /\ m !! c = Some r /\ NonPositiveRate c r ∈ w)
      /\ (existsb (daily_raises df first) TARGET_CURRENCIES = true ->
          parse_daily_rates (Exists (Frame df)) = Raise RuntimeError))
  /\ (forall df pre row post out,
      iterrows df = pre ++ row :: post ->
      py_float (row_get df row c) = Some r ->
      parse_historical_rates float_repr (Exists (Frame df)) = Ok out ->
      kept float_repr df c row = None
      /\ rows_of_currency c out
         = record_row <$> kept_column float_repr df (pre ++ post) c
      /\ exists m,
          calculate_mean_rates series_mean out = Ok m
          /\ m !! c
             = match rate <$> kept_column float_repr df (pre ++ post) c with
               | [] => None
               | l => Some (series_mean l)
               end).
Proof.
  intros Hc Hr. split.
  - intros df first rest Hrows Hcol Hv. split.
    + intros Hno. rewrite <- daily_loop_raised in Hno.
      assert (Hrate : daily_rate_of df first c = Some r).
      { unfold daily_rate_of. rewrite Hcol.
        by rewrite (nonpositive_is_available _ _ Hv Hr). }
      assert (Hm : daily_rates (daily_loop df first) !! c = Some r).
      { rewrite daily_loop_lookup, bool_decide_eq_true_2 by assumption.
        exact Hrate. }
      unfold parse_daily_rates_run. rewrite Hrows, Hno.
      destruct (decide (size (daily_rates (daily_loop df first)) = O))
        as [E|E].
      { apply map_size_empty_iff in E. rewrite E, lookup_empty in Hm.
        discriminate. }
      eexists _, _. split; [reflexivity|]. split; [exact Hm|].
      apply elem_of_app. left.
      by apply daily_fold_warns.
    + intros Hyes. rewrite <- daily_loop_raised in Hyes.
      by rewrite (parse_daily_rates_frame df first rest Hrows), Hyes.
  - intros df pre row post out Hit Hv Hout.
    assert (K : kept float_repr df c row = None).
    { unfold kept. rewrite (nonpositive_is_available _ _ Hv Hr), Hv, Hr.
      reflexivity. }
    apply parse_historical_rates_ok in Hout
      as (df' & [= <-] & _ & _ & Hi & Hne & ->).
    rewrite (historical_loop_data _ _ Hi) in *.
    assert (F : filter (fun o => currency o = c)
                  (flat_map (kept_column float_repr df (iterrows df))
                     TARGET_CURRENCIES)
                = kept_column float_repr df (pre ++ post) c).
    { rewrite filter_chunks by apply NoDup_TARGET_CURRENCIES.
      rewrite bool_decide_eq_true_2 by exact Hc.
      rewrite Hit. by apply kept_column_skip. }
    destruct (flat_map _ _) as [|o data] eqn:D; [done|].
    split; [exact K|]. split.
    + rewrite DataFrame_of_records_cons. unfold rows_of_currency.
      change (rows (long_frame (o :: data))) with (map record_row (o :: data)).
      by rewrite rows_of_currency_long_frame, F.
    + destruct (calculate_mean_rates_records series_mean o data)
        as (m & Hm & Hlook).
      exists m. split; [exact Hm|]. rewrite Hlook. unfold rates_of.
      by rewrite F.
Qed.

(** C2, as the code has it. Every rate of the historical sequence is what
    [float] reads in a cell that is not blank, and, NaN aside, it is
    strictly positive.  Every rate of the daily dictionary is what [float]
    reads in a first-row cell that is not blank, and, NaN aside, it is
    strictly positive, or it is zero or negative and was stored with the
    warning of a non-positive rate. *)
Theorem rate_sign_invariant :
  (forall csv out row,
      parse_historical_rates float_repr csv = Ok out -> row ∈ rows out ->
      exists df o src,
        csv = Exists (Frame df) /\ row = record_row o
        /\ currency o ∈ TARGET_CURRENCIES /\ src ∈ iterrows df
        /\ not_available (row_get df src (currency o)) = false
        /\ py_float (row_get df src (currency o)) = Some (rate o)
        /\ (is_nan (rate o) = false -> (0 <? rate o)%float = true))
  /\ (forall csv w m c r,
      parse_daily_rates_run csv = (w, Ok m) -> m !! c = Some r ->
      exists df first rest,
        csv = Exists (Frame df) /\ rows df = first :: rest
        /\ c ∈ TARGET_CURRENCIES /\ has_column df c = true
        /\ not_available (row_get df first c) = false
        /\ py_float (row_get df first c) = Some r
        /\ (is_nan r = false ->
            (0 <? r)%float = true
            \/ ((r <=? 0)%float = true /\ NonPositiveRate c r ∈ w))).
Proof.
  split.
  - intros csv out row Hout Hrow.
    apply parse_historical_rates_ok in Hout
      as (df & -> & _ & _ & Hi & Hne & ->).
    rewrite (historical_loop_data _ _ Hi) in *.
    destruct (flat_map _ _) as [|o0 data] eqn:D; [done|].
    rewrite DataFrame_of_records_cons in Hrow.
    change (rows (long_frame (o0 :: data)))
      with (map record_row (o0 :: data)) in Hrow.
    apply list_elem_of_In, in_map_iff in Hrow as (o & <- & Ho).
    rewrite <- D in Ho. apply in_flat_map in Ho as (c & Hc & Ho).
    unfold kept_column in Ho. destruct (has_column df c); [|destruct Ho].
    apply list_elem_of_In, list_elem_of_omap in Ho as (src & Hsrc & K).
    assert (Hcur := kept_currency _ _ _ _ _ K). subst c.
    apply kept_rate in K as (Hna & Hfl & Hle).
    exists df, o, src. split; [reflexivity|]. split; [reflexivity|].
    split; [by apply list_elem_of_In|]. split; [exact Hsrc|].
    split; [exact Hna|]. split; [exact Hfl|].
    by apply positive_of_not_le_zero.
  - intros csv w m c r Hrun Hc.
    apply parse_daily_rates_run_ok in Hrun
      as (df & first & rest & -> & R & E & -> & _ & ->).
    rewrite daily_loop_lookup in Hc by exact E.
    destruct (bool_decide (c ∈ TARGET_CURRENCIES)) eqn:T; [|discriminate].
    apply bool_decide_eq_true in T.
    assert (Hrate := Hc). unfold daily_rate_of in Hc.
    destruct (has_column df c) eqn:Hcol; [|discriminate].
    destruct (not_available (row_get df first c)) eqn:Hna; [discriminate|].
    exists df, first, rest. repeat split; try assumption.
    intros N. destruct (r <=? 0)%float eqn:L.
    + right. split; [reflexivity|]. apply elem_of_app. left.
      by apply daily_fold_warns.
    + left. by apply positive_of_not_le_zero.
Qed.

(** C4. A historical table with a data row and no [Date] column fails
    with the missing-column [ValueError], whatever its other columns. *)
Theorem missing_date_column_is_malformed (df : DataFrame) :
  rows df <> [] -> has_column df "Date" = false ->
  parse_historical_rates float_repr (Exists (Frame df))
    = Raise (ValueError MissingDateColumn)
  /\ kind (ValueError MissingDateColumn) = MalformedInput.
Proof.
  intros Hrows Hdate. split; [|reflexivity].
  unfold parse_historical_rates, parse_historical_rates_run.
  destruct (rows df); [done|]. by rewrite Hdate.
Qed.

(** C5. On a table that [read_csv] could read, the daily extractor fails
    with the empty-table error exactly when there is no data row, and with
    the no-valid-rates error exactly when the loop runs to its end and
    leaves the dictionary empty; a missing target column alone is not
    fatal: when one target currency has a usable cell, and no first-row
    cell of a target currency is an integer too large for a float, the
    extractor returns a dictionary, without the missing currency.  Such an
    integer is the one other way to fail: it ends the extractor in
    [RuntimeError]. *)
Theorem daily_error_boundary (df : DataFrame) :
  ((exists e, parse_daily_rates (Exists (Frame df)) = Raise e
              /\ kind e = MalformedInput)
   <-> rows df = [])
  /\ ((exists e, parse_daily_rates (Exists (Frame df)) = Raise e
                 /\ kind e = NoUsableData)
      <-> exists first rest,
            rows df = first :: rest
            /\ raised (daily_loop df first) = false
            /\ daily_rates (daily_loop df first) = ∅)
  /\ (forall first rest c c' r,
        rows df = first :: rest ->
        c ∈ TARGET_CURRENCIES -> has_column df c = false ->
        c' ∈ TARGET_CURRENCIES -> daily_rate_of df first c' = Some r ->
        existsb (daily_raises df first) TARGET_CURRENCIES = false ->
        exists m,
          parse_daily_rates (Exists (Frame df)) = Ok m
          /\ m !! c = None /\ m !! c' = Some r)
  /\ (parse_daily_rates (Exists (Frame df)) = Raise RuntimeError
      <-> exists first rest,
            rows df = first :: rest
            /\ existsb (daily_raises df first) TARGET_CURRENCIES = true).
Proof.
  destruct (rows df) as [|first rest] eqn:R.
  - assert (E : parse_daily_rates (Exists (Frame df))
                = Raise (ValueError CsvNoDataRows)).
    { unfold parse_daily_rates, parse_daily_rates_run. by rewrite R. }
    rewrite E. split; [|split; [|split]].
    + split; [reflexivity|]. intros _. by eexists.
    + split.
      * intros (e & [= <-] & K). discriminate.
      * intros (? & ? & ? & _). discriminate.
    + intros ? ? ? ? ? [=].
    + split; [discriminate | intros (? & ? & ? & _); discriminate].
  - rewrite (parse_daily_rates_frame df first rest R).
    destruct (raised (daily_loop df first)) eqn:X.
    { split; [|split; [|split]].
      - split; [|discriminate]. intros (e & [= <-] & K). discriminate.
      - split; [intros (e & [= <-] & K); discriminate|].
        intros (f & rs & [= <- <-] & Hr & _). congruence.
      - intros f rs c c' r [= <- <-] _ _ _ _ Hno.
        rewrite <- daily_loop_raised in Hno. congruence.
      - split; [|reflexivity]. intros _. exists first, rest.
        by rewrite <- daily_loop_raised. }
    destruct (decide (size (daily_rates (daily_loop df first)) = O)) as [E|E].
    + apply map_size_empty_iff in E. split; [|split; [|split]].
      * split; [|discriminate]. intros (e & [= <-] & K). discriminate.
      * split; [|by eexists]. intros _. by exists first, rest.
      * intros f rs c c' r [= <- <-] _ _ Hc' Hr _.
        apply daily_loop_empty with (c := c') in E; [congruence | | ];
          assumption.
      * split; [discriminate|]. intros (f & rs & [= <- <-] & Hr).
        rewrite <- daily_loop_raised in Hr. congruence.
    + split; [|split; [|split]].
      * split; [|discriminate]. intros (e & [=] & _).
      * split; [intros (e & [=] & _)|].
        intros (f & rs & [= <- <-] & _ & Hempty).
        rewrite Hempty, map_size_empty in E. done.
      * intros f rs c c' r [= <- <-] Hc Hcol Hc' Hr _.
        eexists. split; [reflexivity|].
        rewrite !daily_loop_lookup, !bool_decide_eq_true_2 by assumption.
        split; [|exact Hr]. unfold daily_rate_of. by rewrite Hcol.
      * split; [discriminate|]. intros (f & rs & [= <- <-] & Hr).
        rewrite <- daily_loop_raised in Hr. congruence.
Qed.

(** C6. A target currency whose first-row cell is blank (NaN, the empty
    text, the text [N/A]) or is not read by [float] is not a key of the
    daily dictionary; the row [1.0850,N/A,0.8600,abc] gives exactly the
    rates of USD and GBP. *)
Theorem daily_skips_unusable_cells :
  (forall df first rest c m,
      rows df = first :: rest ->
      not_available (row_get df first c) = true
      \/ py_float (row_get df first c) = None ->
      parse_daily_rates (Exists (Frame df)) = Ok m ->
      m !! c = None)
  /\ parse_daily_rates (Exists (Frame daily_example_2))
     = Ok {[ "USD" := 1.0850%float; "GBP" := 0.8600%float ]}
  /\ parse_daily_rates (Exists (Frame daily_example_2_text))
     = Ok {[ "USD" := 1.0850%float; "GBP" := 0.8600%float ]}.
Proof.
  split; [|split; reflexivity].
  intros df first rest c m R Hv Hm.
  rewrite (parse_daily_rates_frame df first rest R) in Hm.
  destruct (raised (daily_loop df first)) eqn:X; [discriminate|].
  destruct (decide _); [discriminate|]. injection Hm as <-.
  rewrite daily_loop_lookup by exact X.
  destruct (bool_decide _); [|reflexivity].
  unfold daily_rate_of. destruct (has_column df c); [|reflexivity].
  destruct Hv as [-> | Hv]; [reflexivity|].
  by destruct (not_available _).
Qed.

(** C7. The sequence the historical extractor returns lists all the
    records of the first target currency, in row order, then all those of
    the second, and so on in the order of [TARGET_CURRENCIES]. *)
Theorem historical_observation_order (df out : DataFrame) :
  parse_historical_rates float_repr (Exists (Frame df)) = Ok out ->
  columns out = ["date"; "currency"; "rate"]
  /\ rows out
     = record_row <$>
         flat_map
           (fun c => if has_column df c
                     then omap (kept float_repr df c) (iterrows df)
                     else [])
           TARGET_CURRENCIES.
Proof.
  intros Hout.
  apply parse_historical_rates_ok in Hout
    as (df' & [= <-] & _ & _ & Hi & Hne & ->).
  rewrite (historical_loop_data _ _ Hi) in *.
  change (flat_map _ TARGET_CURRENCIES)
    with (flat_map (kept_column float_repr df (iterrows df)) TARGET_CURRENCIES).
  destruct (flat_map _ _) as [|o data]; [done|]. by split.
Qed.

(** C8. A frame that the historical extractor returns is not empty and
    has the columns [currency] and [rate]: the aggregator raises neither
    of its two [ValueError]s on it, and returns a dictionary. *)
Theorem mean_aggregator_accepts_extractor_output
    (csv : csv_file) (out : DataFrame) :
  parse_historical_rates float_repr csv = Ok out ->
  df_empty out = false
  /\ has_column out "currency" = true /\ has_column out "rate" = true
  /\ exists m, calculate_mean_rates series_mean out = Ok m.
Proof.
  intros Hout.
  apply parse_historical_rates_ok in Hout as (df & _ & _ & _ & _ & Hne & ->).
  destruct (historical_data _) as [|o data]; [done|].
  repeat split.
  destruct (calculate_mean_rates_records series_mean o data) as (m & Hm & _).
  by exists m.
Qed.

(** C10. Whatever the two dictionaries hold, the table has one row for
    each target currency, in the configured order; a currency that neither
    dictionary holds has its row, with [N/A] in both cells. *)
Theorem one_row_per_target_currency (daily mean : gmap string float) :
  currency_code <$> create_html_table daily mean = TARGET_CURRENCIES
  /\ length (create_html_table daily mean) = length TARGET_CURRENCIES
  /\ (forall c,
        c ∈ TARGET_CURRENCIES -> daily !! c = None -> mean !! c = None ->
        TableRow c "N/A" "N/A" ∈ create_html_table daily mean).
Proof.
  rewrite create_html_table_rows. split; [reflexivity|]. split; [reflexivity|].
  intros c Hc Hd Hm. apply list_elem_of_In, in_map_iff.
  exists c. rewrite Hd, Hm. split; [reflexivity | by apply list_elem_of_In].
Qed.

End Claims.

(** ** Further properties of the script *)

(** *** The daily extractor *)

Lemma daily_fold_missing df first cs : forall st,
  raised (fold_left (daily_step df first) cs st) = false ->
  missing_currencies (fold_left (daily_step df first) cs st)
  = missing_currencies st ++ filter (fun c => has_column df c = false) cs.
Proof.
  induction cs as [|a cs IH]; intros st H; cbn [fold_left] in *.
  - by rewrite app_nil_r.
  - rewrite IH, filter_cons by exact H.
    rewrite daily_step_completed by (by eapply daily_fold_step).
    case_decide as E.
    + rewrite E. cbn. by rewrite <- app_assoc.
    + apply not_false_is_true in E. rewrite E.
      by destruct (daily_rate_of df first a).
Qed.

Lemma daily_fold_invalid df first cs : forall st,
  raised (fold_left (daily_step df first) cs st) = false ->
  invalid_currencies (fold_left (daily_step df first) cs st)
  = invalid_currencies st
    ++ filter (fun c => has_column df c = true
                        /\ daily_rate_of df first c = None) cs.
Proof.
  induction cs as [|a cs IH]; intros st H; cbn [fold_left] in *.
  - by rewrite app_nil_r.
  - rewrite IH, filter_cons by exact H.
    rewrite daily_step_completed by (by eapply daily_fold_step).
    case_decide as F.
    + destruct F as [E D]. rewrite E, D. cbn. by rewrite <- app_assoc.
    + destruct (has_column df a) eqn:E; [|reflexivity].
      destruct (daily_rate_of df first a) eqn:D; [reflexivity|].
      exfalso. apply F. by split.
Qed.

Lemma parse_daily_rates_nonempty csv m :
  parse_daily_rates csv = Ok m -> size m <> O.
Proof.
  intros H. apply parse_daily_rates_ok in H as (? & ? & ? & _ & _ & _ & _ & N).
  by apply map_size_non_empty_iff.
Qed.

(** X2. The dictionary that the daily extractor returns is not empty, and
    it maps a currency to a rate exactly when the currency is a target
    currency, its column is in the header, and its first-row cell is not
    blank and is read by [float] as that rate; the columns of other
    currencies are ignored. *)
Theorem daily_dictionary_contents
    (df : DataFrame) (first : list cell) (rest : list (list cell))
    (m : gmap string float) :
  rows df = first :: rest ->
  parse_daily_rates (Exists (Frame df)) = Ok m ->
  m <> ∅
  /\ forall c r,
      m !! c = Some r
      <-> c ∈ TARGET_CURRENCIES /\ c ∈ columns df
          /\ not_available (row_get df first c) = false
          /\ py_float (row_get df first c) = Some r.
Proof.
  intros R Hm. split.
  { apply map_size_non_empty_iff. by eapply parse_daily_rates_nonempty. }
  rewrite (parse_daily_rates_frame df first rest R) in Hm.
  destruct (raised (daily_loop df first)) eqn:X; [discriminate|].
  destruct (decide _); [discriminate|]. injection Hm as <-.
  intros c r. rewrite daily_loop_lookup by exact X.
  unfold daily_rate_of, has_column.
  destruct (bool_decide (c ∈ TARGET_CURRENCIES)) eqn:T.
  - apply bool_decide_eq_true in T.
    destruct (bool_decide (c ∈ columns df)) eqn:C.
    + apply bool_decide_eq_true in C.
      destruct (not_available (row_get df first c)).
      * split; [discriminate | intros (_ & _ & [=] & _)].
      * split; [by intros ->| by intros (_ & _ & _ & ->)].
    + apply bool_decide_eq_false in C.
      split; [discriminate | intros (_ & C' & _); done].
  - apply bool_decide_eq_false in T.
    split; [discriminate | intros (T' & _); done].
Qed.

(** X3. After a daily loop that ran to its end every target currency is
    in exactly one of three places: a key of the dictionary, the list of
    missing columns, or the list of invalid values.  The two lists, which
    the warnings print, are in the order of the target currencies: the
    currencies without a column, and those with a column whose first-row
    cell is not usable. *)
Theorem daily_currency_partition (df : DataFrame) (first : list cell) :
  raised (daily_loop df first) = false ->
  missing_currencies (daily_loop df first)
  = filter (fun c => has_column df c = false) TARGET_CURRENCIES
  /\ invalid_currencies (daily_loop df first)
     = filter (fun c => has_column df c = true
                        /\ daily_rate_of df first c = None)
         TARGET_CURRENCIES
  /\ forall c,
      c ∈ TARGET_CURRENCIES ->
      (is_Some (daily_rates (daily_loop df first) !! c)
       /\ (c ∉ missing_currencies (daily_loop df first))
       /\ (c ∉ invalid_currencies (daily_loop df first)))
      \/ (daily_rates (daily_loop df first) !! c = None
          /\ c ∈ missing_currencies (daily_loop df first)
          /\ (c ∉ invalid_currencies (daily_loop df first)))
      \/ (daily_rates (daily_loop df first) !! c = None
          /\ (c ∉ missing_currencies (daily_loop df first))
          /\ c ∈ invalid_currencies (daily_loop df first)).
Proof.
  intros X.
  assert (M : missing_currencies (daily_loop df first)
              = filter (fun c => has_column df c = false) TARGET_CURRENCIES).
  { unfold daily_loop in *. by rewrite daily_fold_missing. }
  assert (V : invalid_currencies (daily_loop df first)
              = filter (fun c => has_column df c = true
                                 /\ daily_rate_of df first c = None)
                  TARGET_CURRENCIES).
  { unfold daily_loop in *. by rewrite daily_fold_invalid. }
  split; [exact M|]. split; [exact V|].
  intros c Hc. rewrite M, V, daily_loop_lookup, !list_elem_of_filter by exact X.
  rewrite bool_decide_eq_true_2 by exact Hc.
  destruct (has_column df c) eqn:E.
  - destruct (daily_rate_of df first c) as [r|] eqn:D.
    + left. split; [by eexists|].
      split; [intros [? _]; discriminate | intros [[_ ?] _]; discriminate].
    + right. right. split; [reflexivity|].
      split; [intros [? _]; discriminate | by repeat split].
  - assert (D : daily_rate_of df first c = None).
    { unfold daily_rate_of. by rewrite E. }
    rewrite D. right. left. split; [reflexivity|].
    split; [by split | intros [[? _] _]; discriminate].
Qed.

(** *** The historical extractor and the aggregator *)





Lemma existsb_elem_of {A : Type} (f : A -> bool) (l : list A) :
  existsb f l = true <-> exists x, x ∈ l /\ f x = true.
Proof.
  rewrite existsb_exists. split; intros (x & Hx & Hf); exists x;
    by rewrite ?list_elem_of_In in *.
Qed.

Section HistoricalExtras.

Variable float_repr : float -> string.
Variable series_mean : list float -> float.

Lemma elem_of_chunks df rws cs o :
  o ∈ flat_map (kept_column float_repr df rws) cs
  <-> exists c row,
        c ∈ cs /\ has_column df c = true /\ row ∈ rws
        /\ kept float_repr df c row = Some o.
Proof.
  rewrite list_elem_of_In, in_flat_map. split.
  - intros (c & Hc & Ho). unfold kept_column in Ho.
    destruct (has_column df c) eqn:E; [|destruct Ho].
    apply list_elem_of_In, list_elem_of_omap in Ho as (row & Hrow & K).
    exists c, row. by rewrite list_elem_of_In.
  - intros (c & row & Hc & E & Hrow & K). exists c.
    split; [by apply list_elem_of_In|]. unfold kept_column. rewrite E.
    apply list_elem_of_In, list_elem_of_omap. by exists row.
Qed.

Lemma parse_historical_rates_frame df :
  rows df <> [] -> has_column df "Date" = true ->
  parse_historical_rates float_repr (Exists (Frame df))
  = if interrupted (historical_loop float_repr df) then Raise RuntimeError
    else
      match historical_data (historical_loop float_repr df) with
      | [] => Raise (ValueError NoValidHistoricalRates)
      | _ :: _ =>
          Ok (DataFrame_of_records
                (historical_data (historical_loop float_repr df)))
      end.
Proof.
  intros R D. unfold parse_historical_rates, parse_historical_rates_run.
  destruct (rows df); [done|]. rewrite D. simpl.
  destruct (interrupted _); [reflexivity|].
  by destruct (historical_data _).
Qed.

(** The loops are left by an exception at some cell, or at none. *)
Lemma historical_loop_raises df :
  interrupted (historical_loop float_repr df) = true
  <-> exists c row,
        c ∈ TARGET_CURRENCIES /\ has_column df c = true
        /\ row ∈ iterrows df /\ historical_raises df c row = true.
Proof.
  rewrite historical_loop_interrupted, existsb_elem_of. split.
  - intros (c & Hc & R). unfold column_raises in R.
    apply andb_true_iff in R as [E R].
    apply existsb_elem_of in R as (row & Hrow & R). by exists c, row.
  - intros (c & row & Hc & E & Hrow & R). exists c. split; [exact Hc|].
    unfold column_raises. rewrite E. apply existsb_elem_of. by exists row.
Qed.

(** X4. On a table with a data row and a [Date] column, the historical
    extractor ends in [RuntimeError] exactly when some cell under a target
    column is an integer too large for a float.  Otherwise it fails with
    the no-valid-rates error exactly when no row has, under a target
    column, a cell that is not blank and that [float] reads as a number
    not [<= 0], and it returns a frame exactly when some row has one. *)
Theorem historical_error_boundary (df : DataFrame) :
  rows df <> [] -> has_column df "Date" = true ->
  (parse_historical_rates float_repr (Exists (Frame df)) = Raise RuntimeError
   <-> exists c row,
         c ∈ TARGET_CURRENCIES /\ has_column df c = true
         /\ row ∈ iterrows df /\ historical_raises df c row = true)
  /\ (parse_historical_rates float_repr (Exists (Frame df))
      = Raise (ValueError NoValidHistoricalRates)
      <-> forall c row,
            c ∈ TARGET_CURRENCIES -> has_column df c = true ->
            row ∈ iterrows df ->
            historical_raises df c row = false
            /\ kept float_repr df c row = None)
  /\ ((exists out, parse_historical_rates float_repr (Exists (Frame df)) = Ok out)
      <-> (forall c row,
             c ∈ TARGET_CURRENCIES -> has_column df c = true ->
             row ∈ iterrows df -> historical_raises df c row = false)
          /\ exists c row,
               c ∈ TARGET_CURRENCIES /\ has_column df c = true
               /\ row ∈ iterrows df /\ is_Some (kept float_repr df c row)).
Proof.
  intros R D. rewrite (parse_historical_rates_frame df R D).
  destruct (interrupted (historical_loop float_repr df)) eqn:X.
  { apply historical_loop_raises in X as (c & row & Hc & E & Hrow & Hr).
    split; [|split].
    - split; [|reflexivity]. intros _. by exists c, row.
    - split; [discriminate|]. intros N.
      destruct (N c row Hc E Hrow) as [N' _]. congruence.
    - split; [intros [out [=]]|]. intros [N _].
      rewrite (N c row Hc E Hrow) in Hr. discriminate. }
  assert (Q : forall c row,
             c ∈ TARGET_CURRENCIES -> has_column df c = true ->
             row ∈ iterrows df -> historical_raises df c row = false).
  { intros c row Hc E Hrow.
    destruct (historical_raises df c row) eqn:Hr; [|reflexivity].
    assert (Y : interrupted (historical_loop float_repr df) = true)
      by (apply historical_loop_raises; by exists c, row).
    congruence. }
  rewrite (historical_loop_data _ _ X).
  destruct (flat_map _ _) as [|o data] eqn:F.
  - assert (N : forall c row,
               c ∈ TARGET_CURRENCIES -> has_column df c = true ->
               row ∈ iterrows df -> kept float_repr df c row = None).
    { intros c row Hc E Hrow.
      destruct (kept float_repr df c row) as [o|] eqn:K; [|reflexivity].
      assert (Ho : o ∈ flat_map (kept_column float_repr df (iterrows df))
                         TARGET_CURRENCIES)
        by (apply elem_of_chunks; by exists c, row).
      rewrite F in Ho. by apply elem_of_nil in Ho. }
    split; [|split].
    + split; [discriminate|]. intros (c & row & Hc & E & Hrow & Hr).
      rewrite (Q c row Hc E Hrow) in Hr. discriminate.
    + split; [|reflexivity]. intros _ c row Hc E Hrow.
      split; [by apply Q | by apply N].
    + split; [intros [out [=]]|].
      intros [_ (c & row & Hc & E & Hrow & [o K])].
      rewrite (N c row Hc E Hrow) in K. discriminate.
  - assert (Ho : o ∈ flat_map (kept_column float_repr df (iterrows df))
                       TARGET_CURRENCIES)
      by (rewrite F; left).
    apply elem_of_chunks in Ho as (c & row & Hc & E & Hrow & K).
    split; [|split].
    + split; [discriminate|]. intros (c' & row' & Hc' & E' & Hrow' & Hr).
      rewrite (Q c' row' Hc' E' Hrow') in Hr. discriminate.
    + split; [discriminate|]. intros N.
      destruct (N c row Hc E Hrow) as [_ N']. rewrite N' in K. discriminate.
    + split; [|by eexists]. intros _. split; [exact Q|]. exists c, row.
      by repeat split; [..|eexists].
Qed.

Lemma historical_step_found df st c k :
  interrupted (historical_step float_repr df st c) = false ->
  currencies_found (historical_step float_repr df st c) !! k
  = if decide (c = k)
    then if has_column df k
         then Some (length (kept_column float_repr df (iterrows df) k))
         else currencies_found st !! k
    else currencies_found st !! k.
Proof.
  intros H. rewrite (historical_step_completed _ _ _ _ H).
  unfold kept_column.
  destruct (decide (c = k)) as [->|Hne].
  - destruct (has_column df k); cbn [currencies_found]; [|reflexivity].
    apply lookup_insert_eq.
  - destruct (has_column df c); cbn [currencies_found]; [|reflexivity].
    by apply lookup_insert_ne.
Qed.

Lemma historical_fold_found df cs : forall st k,
  interrupted (fold_left (historical_step float_repr df) cs st) = false ->
  currencies_found (fold_left (historical_step float_repr df) cs st) !! k
  = if bool_decide (k ∈ cs) && has_column df k
    then Some (length (kept_column float_repr df (iterrows df) k))
    else currencies_found st !! k.
Proof.
  induction cs as [|c cs IH]; intros st k H; cbn [fold_left] in *.
  - reflexivity.
  - rewrite IH by exact H.
    rewrite historical_step_found by (by eapply historical_fold_step).
    destruct (decide (c = k)) as [->|Hne].
    + rewrite (bool_decide_eq_true_2 (k ∈ k :: cs)) by left.
      destruct (bool_decide (k ∈ cs)); destruct (has_column df k); reflexivity.
    + assert (bool_decide (k ∈ c :: cs) = bool_decide (k ∈ cs)) as ->.
      { apply bool_decide_ext. rewrite elem_of_cons.
        split; [intros [?|?]; [congruence | assumption] | by right]. }
      reflexivity.
Qed.

Lemma historical_fold_missing df cs : forall st,
  interrupted (fold_left (historical_step float_repr df) cs st) = false ->
  missing_columns (fold_left (historical_step float_repr df) cs st)
  = missing_columns st ++ filter (fun c => has_column df c = false) cs.
Proof.
  induction cs as [|a cs IH]; intros st H; cbn [fold_left] in *.
  - by rewrite app_nil_r.
  - rewrite IH, filter_cons by exact H.
    rewrite historical_step_completed by (by eapply historical_fold_step).
    case_decide as E.
    + rewrite E. cbn. by rewrite <- app_assoc.
    + apply not_false_is_true in E. by rewrite E.
Qed.

(** X5. The count of records kept for each target currency whose column
    is in the header, which the extractor prints when it returns, is the
    number of rows of that currency in the frame it returns; a target
    currency without a column has no count and is in the list of missing
    currencies, which follows the order of the target currencies. *)
Theorem historical_tally (df out : DataFrame) :
  parse_historical_rates float_repr (Exists (Frame df)) = Ok out ->
  missing_columns (historical_loop float_repr df)
  = filter (fun c => has_column df c = false) TARGET_CURRENCIES
  /\ forall c,
      c ∈ TARGET_CURRENCIES ->
      currencies_found (historical_loop float_repr df) !! c
      = if has_column df c
        then Some (length (rows_of_currency c out))
        else None.
Proof.
  intros Hout.
  apply parse_historical_rates_ok in Hout
    as (df' & [= <-] & _ & _ & Hi & Hne & ->).
  split.
  { unfold historical_loop in *. by rewrite historical_fold_missing. }
  intros c Hc.
  assert (L : currencies_found (historical_loop float_repr df) !! c
              = if has_column df c
                then Some (length (kept_column float_repr df (iterrows df) c))
                else None).
  { unfold historical_loop in *. rewrite historical_fold_found by exact Hi.
    rewrite bool_decide_eq_true_2 by exact Hc. cbn [andb currencies_found].
    destruct (has_column df c); [reflexivity | apply lookup_empty]. }
  rewrite L. destruct (has_column df c) eqn:E; [|reflexivity].
  f_equal. rewrite (historical_loop_data _ _ Hi) in *.
  destruct (flat_map _ _) as [|o data] eqn:F; [done|].
  rewrite DataFrame_of_records_cons. unfold rows_of_currency.
  change (rows (long_frame (o :: data))) with (map record_row (o :: data)).
  rewrite rows_of_currency_long_frame, length_fmap, <- F.
  rewrite filter_chunks by apply NoDup_TARGET_CURRENCIES.
  by rewrite bool_decide_eq_true_2 by exact Hc.
Qed.

(** X6. The extractor and the aggregator together: on the frame that the
    historical extractor returns, the aggregator returns a dictionary
    whose keys are target currencies with a column in the table, and the
    mean of a target currency is [Series.mean] of the rates kept for it,
    in row order; a target currency for which no row is kept is not a
    key. *)
Theorem extracted_means (df out : DataFrame) :
  parse_historical_rates float_repr (Exists (Frame df)) = Ok out ->
  exists m,
    calculate_mean_rates series_mean out = Ok m
    /\ (forall c,
          c ∈ TARGET_CURRENCIES ->
          m !! c
          = match rate <$> kept_column float_repr df (iterrows df) c with
            | [] => None
            | l => Some (series_mean l)
            end)
    /\ (forall c,
          is_Some (m !! c) ->
          c ∈ TARGET_CURRENCIES /\ has_column df c = true).
Proof.
  intros Hout.
  apply parse_historical_rates_ok in Hout
    as (df' & [= <-] & _ & _ & Hi & Hne & ->).
  rewrite (historical_loop_data _ _ Hi) in *.
  destruct (flat_map _ _) as [|o data] eqn:F; [done|].
  destruct (calculate_mean_rates_records series_mean o data) as (m & Hm & L).
  exists m. split; [exact Hm|].
  assert (G : forall c,
             rates_of c (o :: data)
             = rate <$> (if bool_decide (c ∈ TARGET_CURRENCIES)
                         then kept_column float_repr df (iterrows df) c
                         else [])).
  { intros c. unfold rates_of. rewrite <- F.
    by rewrite filter_chunks by apply NoDup_TARGET_CURRENCIES. }
  split.
  - intros c Hc. rewrite L, G. by rewrite bool_decide_eq_true_2 by exact Hc.
  - intros c [x Hx]. rewrite L, G in Hx.
    destruct (bool_decide (c ∈ TARGET_CURRENCIES)) eqn:T; [|discriminate].
    apply bool_decide_eq_true in T. split; [exact T|].
    unfold kept_column in Hx. by destruct (has_column df c).
Qed.


End HistoricalExtras.

(** *** The report *)

Lemma scaled_4_nonneg m e : 0 <= scaled_4 m e.
Proof.
  unfold scaled_4. destruct (0 <=? e) eqn:E.
  - apply Z.leb_le in E.
    assert (0 < 2 ^ e) by (apply Z.pow_pos_nonneg; lia). nia.
  - apply Z.leb_gt in E. unfold round_half_even.
    assert (D : 0 < 2 ^ (- e)) by (apply Z.pow_pos_nonneg; lia).
    assert (Q : 0 <= Z.pos m * 10000 / 2 ^ (- e))
      by (apply Z.div_pos; lia).
    destruct (_ ?= _); [destruct (Z.even _)| |]; lia.
Qed.

Lemma pad4_table :
  forallb (fun x => (String.length (pad4 x) =? 4)%nat
                    && forallb is_digit (list_ascii_of_string (pad4 x)))
    (seqZ 0 10000) = true.
Proof. vm_compute. reflexivity. Qed.

Lemma pad4_digits x :
  0 <= x < 10000 ->
  String.length (pad4 x) = 4%nat
  /\ forallb is_digit (list_ascii_of_string (pad4 x)) = true.
Proof.
  intros Hx. assert (T := pad4_table).
  rewrite forallb_forall in T. specialize (T x).
  rewrite <- list_elem_of_In, elem_of_seqZ in T.
  specialize (T ltac:(lia)). apply andb_true_iff in T as [L D].
  split; [by apply Nat.eqb_eq | exact D].
Qed.

(** What [.4f] prints: a special value, or a numeral with four decimals. *)
Lemma format_4f_shape (f : float) :
  format_4f f = "nan" \/ format_4f f = "inf" \/ format_4f f = "-inf"
  \/ four_decimals (format_4f f).
Proof.
  unfold format_4f. destruct (Prim2SF f) as [s|s| |s m e].
  - right. right. right. exists s, 0, "0000".
    split; [lia|]. by destruct s.
  - destruct s; auto.
  - auto.
  - right. right. right.
    exists s, (scaled_4 m e / 10000), (pad4 (scaled_4 m e mod 10000)).
    assert (N := scaled_4_nonneg m e).
    split; [apply Z.div_pos; lia|]. split; [reflexivity|].
    apply pad4_digits. apply Z.mod_pos_bound. lia.
Qed.

(** X8. Each row of the report is the row of a target currency, and a
    cell shows [N/A] when the currency is not a key of the dictionary or
    its rate is zero, and the [.4f] format of the rate otherwise; the
    table depends on the two dictionaries through the entries of the
    target currencies only. *)
Theorem report_cell_rule (daily mean daily' mean' : gmap string float) :
  (forall row,
      row ∈ create_html_table daily mean ->
      currency_code row ∈ TARGET_CURRENCIES
      /\ rate_cell row
         = match daily !! currency_code row with
           | Some r => if (r =? 0)%float then "N/A" else format_4f r
           | None => "N/A"
           end
      /\ mean_cell row
         = match mean !! currency_code row with
           | Some r => if (r =? 0)%float then "N/A" else format_4f r
           | None => "N/A"
           end)
  /\ ((forall c, c ∈ TARGET_CURRENCIES ->
                 daily !! c = daily' !! c /\ mean !! c = mean' !! c) ->
      create_html_table daily mean = create_html_table daily' mean').
Proof.
  rewrite !create_html_table_rows. split.
  - intros row Hrow.
    apply list_elem_of_In, in_map_iff in Hrow as (c & <- & Hc).
    apply list_elem_of_In in Hc. cbn [currency_code rate_cell mean_cell].
    split; [exact Hc|]. unfold render, truthy.
    split; [destruct (daily !! c) as [r|] | destruct (mean !! c) as [r|]];
      try reflexivity; by destruct (r =? 0)%float.
  - intros H. apply map_ext_in. intros c Hc.
    apply list_elem_of_In in Hc. destruct (H c Hc) as [-> ->]. reflexivity.
Qed.

(** X9. Every cell of the two rate columns of the report is [N/A], one of
    [nan], [inf], [-inf], or a decimal numeral with exactly four digits
    after the point. *)
Theorem report_cells_have_four_decimals
    (daily mean : gmap string float) (row : table_row) :
  row ∈ create_html_table daily mean ->
  (rate_cell row ∈ ["N/A"; "nan"; "inf"; "-inf"]
   \/ four_decimals (rate_cell row))
  /\ (mean_cell row ∈ ["N/A"; "nan"; "inf"; "-inf"]
      \/ four_decimals (mean_cell row)).
Proof.
  assert (R : forall x, render x ∈ ["N/A"; "nan"; "inf"; "-inf"]
                        \/ four_decimals (render x)).
  { intros [r|]; [|left; left]. unfold render.
    destruct (truthy (Some r)); [|left; left].
    destruct (format_4f_shape r) as [-> | [-> | [-> | H]]];
      [left; right; left | left; do 2 right; left
      | left; do 3 right; left | by right]. }
  rewrite create_html_table_rows. intros Hrow.
  apply list_elem_of_In, in_map_iff in Hrow as (c & <- & _).
  cbn [rate_cell mean_cell]. split; apply R.
Qed.

(** *** White space *)

Section Strip.

Context {A : Type} (space : A -> bool).

Lemma lstrip_nil_iff (l : list A) :
  lstrip space l = [] <-> forallb space l = true.
Proof.
  induction l as [|a l IH]; simpl; [done|].
  destruct (space a); simpl; [exact IH | split; discriminate].
Qed.

Lemma lstrip_all_space (l : list A) :
  forallb space (lstrip space l) = true -> lstrip space l = [].
Proof.
  induction l as [|a l IH]; simpl; [done|].
  destruct (space a) eqn:E; [exact IH|]. simpl. by rewrite E.
Qed.

Lemma forallb_rev (l : list A) :
  forallb space (rev l) = forallb space l.
Proof.
  induction l as [|a l IH]; simpl; [reflexivity|].
  rewrite forallb_app, IH. simpl. rewrite andb_true_r. apply andb_comm.
Qed.

(** [strip] leaves nothing exactly of the texts made of white space. *)
Lemma strip_nil_iff (l : list A) :
  strip space l = [] <-> forallb space l = true.
Proof.
  unfold strip. rewrite <- lstrip_nil_iff. split.
  - intros H. apply (f_equal (@rev A)) in H.
    rewrite rev_involutive in H. simpl in H.
    apply lstrip_nil_iff in H. rewrite forallb_rev in H.
    by apply lstrip_all_space.
  - intros ->. reflexivity.
Qed.

End Strip.

Lemma blank_iff (s : string) :
  blank s = true <-> forallb unicode_space (code_points s) = true.
Proof.
  unfold blank. rewrite <- strip_nil_iff.
  destruct (strip _ _); split; (done || discriminate).
Qed.

Lemma page_head_starts :
  page_head
  = "<!DOCTYPE html>"
    +:+ String.substring 15 (String.length page_head) page_head.
Proof. vm_compute. reflexivity. Qed.

Lemma html_page_starts
    (to_html : list table_row -> string) (daily mean : gmap string float) :
  exists rest, html_page to_html daily mean = "<!DOCTYPE html>" +:+ rest.
Proof.
  unfold html_page. rewrite page_head_starts.
  set (tl := String.substring _ _ _). generalize tl. clear tl. intros tl.
  by exists (tl +:+ to_html (create_html_table daily mean) +:+ page_tail).
Qed.

Lemma html_page_not_blank
    (to_html : list table_row -> string) (daily mean : gmap string float) :
  blank (html_page to_html daily mean) = false.
Proof.
  destruct (html_page_starts to_html daily mean) as [rest ->].
  destruct (blank _) eqn:B; [|reflexivity].
  apply blank_iff in B. discriminate.
Qed.

(** X10. Whatever the dictionaries hold and whatever text pandas makes of
    the table, the page starts with the document type line and is not
    blank. *)
Theorem page_is_never_blank
    (to_html : list table_row -> string) (daily mean : gmap string float) :
  blank (html_page to_html daily mean) = false
  /\ exists rest, html_page to_html daily mean = "<!DOCTYPE html>" +:+ rest.
Proof.
  split; [apply html_page_not_blank | apply html_page_starts].
Qed.

(** *** The pipeline *)

Section MainExtras.

Variable float_repr : float -> string.
Variable series_mean : list float -> float.
Variable to_html : list table_row -> string.

Lemma parse_daily_rates_exists csv m :
  parse_daily_rates csv = Ok m -> is_missing csv = false.
Proof. by destruct csv. Qed.

Lemma parse_historical_rates_exists csv out :
  parse_historical_rates float_repr csv = Ok out -> is_missing csv = false.
Proof. by destruct csv. Qed.

Lemma parse_daily_rates_found r :
  parse_daily_rates (Exists r) <> Raise FileNotFoundError.
Proof.
  unfold parse_daily_rates, parse_daily_rates_run.
  destruct r as [| | | |df]; simpl; try discriminate.
  destruct (rows df); simpl; [discriminate|].
  destruct (raised _); simpl; [discriminate|].
  destruct (decide _); discriminate.
Qed.

Lemma parse_historical_rates_found r :
  parse_historical_rates float_repr (Exists r) <> Raise FileNotFoundError.
Proof.
  unfold parse_historical_rates, parse_historical_rates_run.
  destruct r as [| | | |df]; simpl; try discriminate.
  destruct (rows df); simpl; [discriminate|].
  destruct (negb _); simpl; [discriminate|].
  destruct (interrupted _); simpl; [discriminate|].
  destruct (historical_data _); discriminate.
Qed.

Lemma extractor_output_has_means csv out :
  parse_historical_rates float_repr csv = Ok out ->
  exists m, calculate_mean_rates series_mean out = Ok m.
Proof.
  intros H.
  apply parse_historical_rates_ok in H as (df & _ & _ & _ & _ & N & ->).
  destruct (historical_data _) as [|o data]; [done|].
  destruct (calculate_mean_rates_records series_mean o data) as (m & Hm & _).
  by exists m.
Qed.

(** The pipeline once both extractors have returned. *)
Lemma main_run_extracted daily_csv historical_csv fs d h :
  parse_daily_rates daily_csv = Ok d ->
  parse_historical_rates float_repr historical_csv = Ok h ->
  exists m,
    calculate_mean_rates series_mean h = Ok m
    /\ main_run float_repr series_mean to_html daily_csv historical_csv fs
       = match fs with
         | Writable =>
             Completed
               (filter (fun curr => d !! curr = None /\ m !! curr = None)
                  TARGET_CURRENCIES)
               (html_page to_html d m)
         | Denied => Failed (SaveFailure SavePermissionError)
         | Failing | Vanishing => Failed (SaveFailure SaveIOError)
         | Broken => Failed (SaveFailure SaveRuntimeError)
         end.
Proof.
  intros D H. destruct (extractor_output_has_means _ _ H) as [m M].
  exists m. split; [exact M|]. unfold main_run.
  rewrite (parse_daily_rates_exists _ _ D).
  rewrite (parse_historical_rates_exists _ _ H). cbn [app].
  rewrite D, H, M.
  destruct (decide _) as [[Z _]|_].
  { by apply parse_daily_rates_nonempty in D. }
  unfold save_html_report.
  rewrite (html_page_not_blank to_html d m).
  by destruct fs.
Qed.

(** X12. [main] returns 0 exactly when both extractors return and the
    output path can be written; the page saved is then the page of the
    table of the daily dictionary and of the means of the historical
    frame, and the currencies reported without data are the target
    currencies that are keys of neither dictionary. *)
Theorem main_succeeds_iff (daily_csv historical_csv : csv_file)
    (fs : file_system) :
  (main float_repr series_mean to_html daily_csv historical_csv fs = 0
   <-> (exists d h,
          parse_daily_rates daily_csv = Ok d
          /\ parse_historical_rates float_repr historical_csv = Ok h)
       /\ fs = Writable)
  /\ (forall missing_all page,
        main_run float_repr series_mean to_html daily_csv historical_csv fs
        = Completed missing_all page ->
        exists d h m,
          parse_daily_rates daily_csv = Ok d
          /\ parse_historical_rates float_repr historical_csv = Ok h
          /\ calculate_mean_rates series_mean h = Ok m
          /\ page = html_page to_html d m
          /\ missing_all
             = filter (fun curr => d !! curr = None /\ m !! curr = None)
                 TARGET_CURRENCIES).
Proof.
  assert (C : forall missing_all page,
             main_run float_repr series_mean to_html daily_csv
               historical_csv fs = Completed missing_all page ->
             fs = Writable
             /\ exists d h m,
                 parse_daily_rates daily_csv = Ok d
                 /\ parse_historical_rates float_repr historical_csv = Ok h
                 /\ calculate_mean_rates series_mean h = Ok m
                 /\ page = html_page to_html d m
                 /\ missing_all
                    = filter (fun curr => d !! curr = None
                                          /\ m !! curr = None)
                        TARGET_CURRENCIES).
  { intros missing_all page. unfold main_run.
    destruct (_ ++ _); [|discriminate].
    destruct (parse_daily_rates daily_csv) as [d|] eqn:D; [|discriminate].
    destruct (parse_historical_rates float_repr historical_csv) as [h|] eqn:H;
      [|discriminate].
    destruct (calculate_mean_rates series_mean h) as [m|] eqn:M;
      [|discriminate].
    destruct (decide _); [discriminate|].
    unfold save_html_report. destruct (blank _); [discriminate|].
    destruct fs; try discriminate. intros [= <- <-].
    split; [reflexivity|]. by exists d, h, m. }
  split.
  - unfold main. split.
    + destruct (main_run _ _ _ _ _ _) as [ms page|f] eqn:R; [|discriminate].
      intros _. destruct (C ms page eq_refl) as (-> & d & h & m & D & H & _).
      split; [by exists d, h | reflexivity].
    + intros [(d & h & D & H) ->].
      destruct (main_run_extracted daily_csv historical_csv Writable d h D H)
        as (m & _ & ->). reflexivity.
  - intros missing_all page R. by destruct (C missing_all page R) as [_ E].
Qed.

(** X13. Five of the failures that the pipeline guards against cannot
    happen in [main]: the extractors never raise [FileNotFoundError] (the
    check of both paths comes first), the aggregator never raises on the
    frame of the historical extractor, the test that both dictionaries are
    empty never holds, and the page handed to [save_html_report] is never
    blank. *)
Theorem main_unreachable_failures (daily_csv historical_csv : csv_file)
    (fs : file_system) (f : main_failure) :
  main_run float_repr series_mean to_html daily_csv historical_csv fs
  = Failed f ->
  f <> DailyFailure FileNotFoundError
  /\ f <> HistoricalFailure FileNotFoundError
  /\ (forall e, f <> MeanFailure e)
  /\ f <> NoExchangeRateData
  /\ f <> SaveFailure SaveValueError.
Proof.
  unfold main_run.
  destruct daily_csv as [|r]; cbn [is_missing].
  { intros [= <-]. by repeat split. }
  destruct historical_csv as [|r']; cbn [is_missing app].
  { intros [= <-]. by repeat split. }
  destruct (parse_daily_rates (Exists r)) as [d|e] eqn:D.
  2:{ intros [= <-]. repeat split; try discriminate.
      intros [= ->]. by apply parse_daily_rates_found in D. }
  destruct (parse_historical_rates float_repr (Exists r')) as [h|e] eqn:H.
  2:{ intros [= <-]. repeat split; try discriminate.
      intros [= ->]. by apply parse_historical_rates_found in H. }
  destruct (main_run_extracted (Exists r) (Exists r') fs d h D H)
    as (m & M & R).
  unfold main_run in R. cbn [is_missing app] in R. rewrite D, H in R.
  rewrite R. destruct fs; intros [= <-]; by repeat split.
Qed.

End MainExtras.


End Script.

(** ** The script at concrete tables

    The closed statements below are evaluated with the decimal digits of
    Unicode 15. *)

#[global] Existing Instance unicode_15.

(** *** The examples of the specification *)

Example float_of_string_examples :
  map float_of_string
    ["1.0850"; " -0.5 "; "1e3"; "1_000.5"; "-0"; "Infinity"; "abc"; "N/A";
     ""; "1e"; "0x10"; "1__0"; " 1_0 "; "_ 1"; "1 _"]
  = [Some 1.0850; Some (-0.5); Some 1000; Some 1000.5; Some (-0);
     Some infinity; None; None; None; None; None; None; Some 10; None;
     None]%float.
Proof. reflexivity. Qed.

(** [float] strips the file separator U+001C from no ASCII text, and
    reads a no-break space (bytes 194 160) as a blank and the
    Arabic-Indic digits one and two (bytes 217 161, 217 162) as 12. *)
Example float_of_string_unicode :
  float_of_string (String "028" "1.5") = None
  /\ float_of_string (String "194" (String "160" "1.5")) = Some 1.5%float
  /\ float_of_string
       (String "217" (String "161" (String "217" (String "162" ""))))
     = Some 12%float
  /\ float_of_string (String "195" (String "169" "1")) = None.
Proof. repeat split. Qed.

(** [str.strip] leaves nothing of a no-break space followed by an em
    space (bytes 226 128 131). *)
Example blank_examples :
  blank "" = true /\ blank (String "009" (String "028" " ")) = true
  /\ blank (String "194" (String "160"
              (String "226" (String "128" (String "131" ""))))) = true
  /\ blank " <p> " = false.
Proof. repeat split. Qed.

Example float_of_integer_examples :
  py_float (CInt (2 ^ 1024 - 2 ^ 970 - 1))
    = Some 0x1.fffffffffffffp+1023%float
  /\ float_call (CInt (2 ^ 1024 - 2 ^ 970)) = RaisesOverflowError
  /\ float_call (CInt (10 ^ 400)) = RaisesOverflowError
  /\ float_call (CInt (- 10 ^ 400)) = RaisesOverflowError
  /\ float_call (CStr "1e400") = Returns infinity.
Proof. repeat split. Qed.

Example format_4f_examples :
  map format_4f [1.0850; 157.30; 0; -0.00001; 2.675; 0.99995; nan]%float
  = ["1.0850"; "157.3000"; "0.0000"; "-0.0000"; "2.6750"; "1.0000"; "nan"].
Proof. reflexivity. Qed.

Example specification_example_1 :
  parse_daily_rates (Exists (Frame daily_example_1))
  = Ok {[ "USD" := 1.0850%float; "SEK" := 11.20%float;
          "GBP" := 0.8600%float; "JPY" := 157.30%float ]}.
Proof. reflexivity. Qed.

Example specification_example_3 :
  match parse_historical_rates repr_nan (Exists (Frame historical_example_3)) with
  | Ok out => calculate_mean_rates group_mean out
  | Raise e => Raise e
  end = Ok {[ "USD" := 1.09%float ]}.
Proof. reflexivity. Qed.

Example specification_example_4 :
  parse_historical_rates repr_nan (Exists (Frame historical_sek_negative))
  = Ok (DataFrame_of_records [Observation "2024-01-02" "SEK" 2])
  /\ calculate_mean_rates group_mean
       (DataFrame_of_records [Observation "2024-01-02" "SEK" 2])
     = Ok {[ "SEK" := 2%float ]}.
Proof. split; reflexivity. Qed.

Example report_example :
  create_html_table {[ "USD" := 1.0850%float; "SEK" := 11.20%float ]}
    {[ "USD" := 1.09%float ]}
  = [TableRow "USD" "1.0850" "1.0900"; TableRow "SEK" "11.2000" "N/A";
     TableRow "GBP" "N/A" "N/A"; TableRow "JPY" "N/A" "N/A"].
Proof. reflexivity. Qed.

(** An integer too large for a float ends both extractors in
    [RuntimeError]; the warnings printed before it stay printed. *)
Example overflow_examples :
  parse_daily_rates_run (Exists (Frame daily_gbp_huge))
  = ([NonPositiveRate "SEK" (-0.5)], Raise RuntimeError)
  /\ parse_daily_rates (Exists (Frame daily_sek_huge)) = Raise RuntimeError
  /\ parse_historical_rates repr_nan (Exists (Frame historical_usd_huge))
     = Raise RuntimeError.
Proof. repeat split. Qed.

(** *** The claims that fail *)

(** C2, counterexample. The daily table with the single field [0] under
    [USD] gives a dictionary whose rate for USD is zero. *)
Lemma daily_keeps_zero_rate :
  exists m r,
    parse_daily_rates (Exists (Frame daily_usd_zero)) = Ok m
    /\ m !! "USD" = Some r
    /\ (r =? 0)%float = true /\ (0 <? r)%float = false.
Proof.
  exists {[ "USD" := 0%float ]}, 0%float. repeat split.
Qed.

(** The text [NAN] is neither blank nor [<= 0] once [float] has read it:
    the historical sequence can hold NaN. *)
Lemma historical_keeps_nan_text :
  parse_historical_rates repr_nan (Exists (Frame historical_nan_text))
  = Ok (DataFrame_of_records [Observation "2024-01-01" "USD" nan]).
Proof. reflexivity. Qed.

(** C3, at the failing input. The historical table whose USD fields are
    the text [NAN] and [2.0] gives the observations NaN and 2 for USD.
    The mean that the aggregator returns for USD is 2, the mean of the one
    observation that is not NaN; the sum of the two observations divided
    by their count is NaN, which is within no tolerance of 2. *)
Theorem mean_skips_nan_observation :
  parse_historical_rates repr_nan (Exists (Frame historical_nan_and_two))
  = Ok (DataFrame_of_records
          [Observation "2024-01-01" "USD" nan;
           Observation "2024-01-02" "USD" 2])
  /\ rates_of "USD"
       [Observation "2024-01-01" "USD" nan; Observation "2024-01-02" "USD" 2]
     = [nan; 2%float]
  /\ calculate_mean_rates group_mean
       (DataFrame_of_records
          [Observation "2024-01-01" "USD" nan;
           Observation "2024-01-02" "USD" 2])
     = Ok {[ "USD" := 2%float ]}
  /\ is_nan (naive_mean [nan; 2%float]) = true
  /\ isclose 2 (naive_mean [nan; 2%float]) = false.
Proof. repeat split. Qed.

(** C9, at the failing input. The daily table with the field [0] under
    [USD] gives the dictionary with the rate zero for USD; the report shows
    [N/A] in the rate cell of USD, although USD is a key of the dictionary
    and the format of its rate is [0.0000]. *)
Theorem zero_rate_rendered_as_absent :
  parse_daily_rates (Exists (Frame daily_usd_zero)) = Ok {[ "USD" := 0%float ]}
  /\ ({[ "USD" := 0%float ]} : gmap string float) !! "USD" = Some 0%float
  /\ create_html_table {[ "USD" := 0%float ]} ∅ !! O
     = Some (TableRow "USD" "N/A" "N/A")
  /\ format_4f 0 = "0.0000".
Proof. repeat split. Qed.

(** *** The theorems at concrete tables *)

Lemma nonpositive_rate_asymmetry_witness :
  "SEK" ∈ TARGET_CURRENCIES /\ (-0.5 <=? 0)%float = true
  /\ (exists w m,
        parse_daily_rates_run (Exists (Frame daily_sek_negative)) = (w, Ok m)
        /\ m !! "SEK" = Some (-0.5)%float
        /\ NonPositiveRate "SEK" (-0.5) ∈ w)
  /\ py_float (row_get daily_gbp_huge
                 [CFloat 1.0850; CFloat (-0.5); CInt (10 ^ 400)] "SEK")
     = Some (-0.5)%float
  /\ parse_daily_rates (Exists (Frame daily_gbp_huge)) = Raise RuntimeError
  /\ (kept repr_nan historical_sek_negative "SEK"
        [CStr "2024-01-01"; CFloat (-0.5)] = None
      /\ rows_of_currency "SEK"
           (DataFrame_of_records [Observation "2024-01-02" "SEK" 2])
         = record_row <$>
             kept_column repr_nan historical_sek_negative
               ([] ++ [[CStr "2024-01-02"; CFloat 2]]) "SEK"
      /\ exists m,
          calculate_mean_rates group_mean
            (DataFrame_of_records [Observation "2024-01-02" "SEK" 2]) = Ok m
          /\ m !! "SEK"
             = match rate <$>
                       kept_column repr_nan historical_sek_negative
                         ([] ++ [[CStr "2024-01-02"; CFloat 2]]) "SEK" with
               | [] => None
               | l => Some (group_mean l)
               end).
Proof.
  assert (T : "SEK" ∈ TARGET_CURRENCIES)
    by apply list_elem_of_further, list_elem_of_here.
  assert (L : (-0.5 <=? 0)%float = true) by reflexivity.
  destruct (nonpositive_rate_asymmetry repr_nan group_mean "SEK" (-0.5) T L)
    as [D H].
  split; [exact T|]. split; [exact L|]. split; [|split; [|split]].
  - apply (D daily_sek_negative [CFloat 1.0850; CFloat (-0.5)] []);
      reflexivity.
  - reflexivity.
  - apply (D daily_gbp_huge [CFloat 1.0850; CFloat (-0.5); CInt (10 ^ 400)] []);
      reflexivity.
  - apply (H historical_sek_negative [] [CStr "2024-01-01"; CFloat (-0.5)]
             [[CStr "2024-01-02"; CFloat 2]]); reflexivity.
Defined.

Lemma rate_sign_invariant_witness :
  (exists df o src,
      Exists (Frame historical_two_currencies) = Exists (Frame df)
      /\ [CStr "2024-01-03"; CStr "SEK"; CFloat 11.3] = record_row o
      /\ currency o ∈ TARGET_CURRENCIES /\ src ∈ iterrows df
      /\ not_available (row_get df src (currency o)) = false
      /\ py_float (row_get df src (currency o)) = Some (rate o)
      /\ (is_nan (rate o) = false -> (0 <? rate o)%float = true))
  /\ (exists df first rest,
        Exists (Frame daily_usd_zero) = Exists (Frame df)
        /\ rows df = first :: rest
        /\ "USD" ∈ TARGET_CURRENCIES /\ has_column df "USD" = true
        /\ not_available (row_get df first "USD") = false
        /\ py_float (row_get df first "USD") = Some 0%float
        /\ (is_nan 0 = false ->
            (0 <? 0)%float = true
            \/ ((0 <=? 0)%float = true
                /\ NonPositiveRate "USD" 0
                   ∈ [NonPositiveRate "USD" 0;
                      MissingColumns ["SEK"; "GBP"; "JPY"]]))).
Proof.
  destruct (rate_sign_invariant repr_nan) as [H D]. split.
  - apply (H (Exists (Frame historical_two_currencies))
             (DataFrame_of_records
                [Observation "2024-01-01" "USD" 1.08;
                 Observation "2024-01-02" "USD" 1.10;
                 Observation "2024-01-01" "SEK" 11.2;
                 Observation "2024-01-03" "SEK" 11.3]));
      [reflexivity | do 3 apply list_elem_of_further; apply list_elem_of_here].
  - apply (D (Exists (Frame daily_usd_zero)) _ {[ "USD" := 0%float ]});
      reflexivity.
Defined.

Lemma missing_date_column_is_malformed_witness :
  rows historical_no_date <> []
  /\ has_column historical_no_date "Date" = false
  /\ parse_historical_rates repr_nan (Exists (Frame historical_no_date))
     = Raise (ValueError MissingDateColumn)
  /\ kind (ValueError MissingDateColumn) = MalformedInput.
Proof.
  assert (R : rows historical_no_date <> []) by discriminate.
  assert (D : has_column historical_no_date "Date" = false) by reflexivity.
  split; [exact R|]. split; [exact D|].
  exact (missing_date_column_is_malformed repr_nan historical_no_date R D).
Defined.

Lemma daily_error_boundary_witness :
  rows daily_no_jpy = [[CFloat 1.0850; CFloat 11.20; CFloat 0.8600]]
  /\ "JPY" ∈ TARGET_CURRENCIES /\ has_column daily_no_jpy "JPY" = false
  /\ "USD" ∈ TARGET_CURRENCIES
  /\ daily_rate_of daily_no_jpy [CFloat 1.0850; CFloat 11.20; CFloat 0.8600]
       "USD" = Some 1.0850%float
  /\ existsb
       (daily_raises daily_no_jpy [CFloat 1.0850; CFloat 11.20; CFloat 0.8600])
       TARGET_CURRENCIES = false
  /\ (exists m,
        parse_daily_rates (Exists (Frame daily_no_jpy)) = Ok m
        /\ m !! "JPY" = None /\ m !! "USD" = Some 1.0850%float)
  /\ has_column daily_sek_huge "JPY" = false
  /\ daily_rate_of daily_sek_huge [CFloat 1.5; CInt (10 ^ 400); CFloat 0.86]
       "USD" = Some 1.5%float
  /\ parse_daily_rates (Exists (Frame daily_sek_huge)) = Raise RuntimeError.
Proof.
  assert (J : "JPY" ∈ TARGET_CURRENCIES)
    by apply list_elem_of_further, list_elem_of_further,
             list_elem_of_further, list_elem_of_here.
  assert (U : "USD" ∈ TARGET_CURRENCIES) by apply list_elem_of_here.
  split; [reflexivity|]. split; [exact J|]. split; [reflexivity|].
  split; [exact U|]. split; [reflexivity|]. split; [reflexivity|].
  split; [|split; [reflexivity|split; [reflexivity|]]].
  - destruct (daily_error_boundary daily_no_jpy) as (_ & _ & P & _).
    apply (P [CFloat 1.0850; CFloat 11.20; CFloat 0.8600] [] "JPY" "USD");
      [reflexivity | exact J | reflexivity | exact U | reflexivity
      | reflexivity].
  - destruct (daily_error_boundary daily_sek_huge) as (_ & _ & _ & P).
    apply P. exists [CFloat 1.5; CInt (10 ^ 400); CFloat 0.86], [].
    split; reflexivity.
Defined.

Lemma daily_skips_unusable_cells_witness :
  rows daily_example_2
    = [[CFloat 1.0850; CFloat nan; CFloat 0.8600; CStr "abc"]]
  /\ py_float (row_get daily_example_2
                 [CFloat 1.0850; CFloat nan; CFloat 0.8600; CStr "abc"] "JPY")
     = None
  /\ parse_daily_rates (Exists (Frame daily_example_2))
     = Ok {[ "USD" := 1.0850%float; "GBP" := 0.8600%float ]}
  /\ ({[ "USD" := 1.0850%float; "GBP" := 0.8600%float ]}
        : gmap string float) !! "JPY" = None.
Proof.
  destruct daily_skips_unusable_cells as (P & E & _).
  split; [reflexivity|]. split; [reflexivity|]. split; [exact E|].
  apply (P daily_example_2
           [CFloat 1.0850; CFloat nan; CFloat 0.8600; CStr "abc"] [] "JPY");
    [reflexivity | right; reflexivity | exact E].
Defined.

(** The table lists SEK before USD and the sequence has USD first; the
    second row of SEK and the third of USD give no record. *)
Lemma historical_observation_order_witness :
  parse_historical_rates repr_nan (Exists (Frame historical_two_currencies))
    = Ok (DataFrame_of_records
            [Observation "2024-01-01" "USD" 1.08;
             Observation "2024-01-02" "USD" 1.10;
             Observation "2024-01-01" "SEK" 11.2;
             Observation "2024-01-03" "SEK" 11.3])
  /\ [[CStr "2024-01-01"; CStr "USD"; CFloat 1.08];
      [CStr "2024-01-02"; CStr "USD"; CFloat 1.10];
      [CStr "2024-01-01"; CStr "SEK"; CFloat 11.2];
      [CStr "2024-01-03"; CStr "SEK"; CFloat 11.3]]
     = record_row <$>
         flat_map
           (fun c => if has_column historical_two_currencies c
                     then omap (kept repr_nan historical_two_currencies c)
                            (iterrows historical_two_currencies)
                     else [])
           TARGET_CURRENCIES.
Proof.
  assert (E : parse_historical_rates repr_nan
                (Exists (Frame historical_two_currencies))
              = Ok (DataFrame_of_records
                      [Observation "2024-01-01" "USD" 1.08;
                       Observation "2024-01-02" "USD" 1.10;
                       Observation "2024-01-01" "SEK" 11.2;
                       Observation "2024-01-03" "SEK" 11.3]))
    by reflexivity.
  split; [exact E|].
  exact (proj2 (historical_observation_order repr_nan
                  historical_two_currencies _ E)).
Defined.

Lemma mean_aggregator_accepts_extractor_output_witness :
  parse_historical_rates repr_nan (Exists (Frame historical_sek_negative))
    = Ok (DataFrame_of_records [Observation "2024-01-02" "SEK" 2])
  /\ df_empty (DataFrame_of_records [Observation "2024-01-02" "SEK" 2]) = false
  /\ has_column (DataFrame_of_records [Observation "2024-01-02" "SEK" 2])
       "currency" = true
  /\ has_column (DataFrame_of_records [Observation "2024-01-02" "SEK" 2])
       "rate" = true
  /\ exists m,
      calculate_mean_rates group_mean
        (DataFrame_of_records [Observation "2024-01-02" "SEK" 2]) = Ok m.
Proof.
  assert (E : parse_historical_rates repr_nan
                (Exists (Frame historical_sek_negative))
              = Ok (DataFrame_of_records [Observation "2024-01-02" "SEK" 2]))
    by reflexivity.
  split; [exact E|].
  exact (mean_aggregator_accepts_extractor_output repr_nan group_mean _ _ E).
Defined.

Lemma one_row_per_target_currency_witness :
  "GBP" ∈ TARGET_CURRENCIES
  /\ (∅ : gmap string float) !! "GBP" = None
  /\ TableRow "GBP" "N/A" "N/A" ∈ create_html_table ∅ ∅.
Proof.
  assert (G : "GBP" ∈ TARGET_CURRENCIES)
    by apply list_elem_of_further, list_elem_of_further, list_elem_of_here.
  split; [exact G|]. split; [reflexivity|].
  destruct (one_row_per_target_currency ∅ ∅) as (_ & _ & P).
  apply (P "GBP"); [exact G | reflexivity | reflexivity].
Defined.

(** *** The further properties at concrete tables *)

Lemma daily_dictionary_contents_witness :
  rows daily_two_rows
  = [CFloat 1.0850; CFloat 0.95; CStr "abc"]
    :: [[CFloat 9.9; CFloat 9.9; CFloat 9.9]]
  /\ parse_daily_rates (Exists (Frame daily_two_rows))
     = Ok {[ "USD" := 1.0850%float ]}
  /\ ({[ "USD" := 1.0850%float ]} : gmap string float) <> ∅
  /\ forall c r,
      ({[ "USD" := 1.0850%float ]} : gmap string float) !! c = Some r
      <-> c ∈ TARGET_CURRENCIES /\ c ∈ columns daily_two_rows
          /\ not_available
               (row_get daily_two_rows
                  [CFloat 1.0850; CFloat 0.95; CStr "abc"] c) = false
          /\ py_float
               (row_get daily_two_rows
                  [CFloat 1.0850; CFloat 0.95; CStr "abc"] c) = Some r.
Proof.
  split; [reflexivity|]. split; [reflexivity|].
  apply (daily_dictionary_contents daily_two_rows
           [CFloat 1.0850; CFloat 0.95; CStr "abc"]
           [[CFloat 9.9; CFloat 9.9; CFloat 9.9]]); reflexivity.
Defined.

Lemma daily_currency_partition_witness :
  raised (daily_loop daily_two_rows [CFloat 1.0850; CFloat 0.95; CStr "abc"])
  = false
  /\ missing_currencies
       (daily_loop daily_two_rows [CFloat 1.0850; CFloat 0.95; CStr "abc"])
     = filter (fun c => has_column daily_two_rows c = false) TARGET_CURRENCIES
  /\ filter (fun c => has_column daily_two_rows c = false) TARGET_CURRENCIES
     = ["GBP"; "JPY"]
  /\ invalid_currencies
       (daily_loop daily_two_rows [CFloat 1.0850; CFloat 0.95; CStr "abc"])
     = filter (fun c => has_column daily_two_rows c = true
                        /\ daily_rate_of daily_two_rows
                             [CFloat 1.0850; CFloat 0.95; CStr "abc"] c = None)
         TARGET_CURRENCIES.
Proof.
  assert (R : raised (daily_loop daily_two_rows
                        [CFloat 1.0850; CFloat 0.95; CStr "abc"]) = false)
    by reflexivity.
  destruct (daily_currency_partition daily_two_rows
              [CFloat 1.0850; CFloat 0.95; CStr "abc"] R) as (M & V & _).
  split; [exact R|]. split; [exact M|]. split; [reflexivity | exact V].
Defined.

Lemma historical_error_boundary_witness :
  rows historical_usd_huge <> []
  /\ has_column historical_usd_huge "Date" = true
  /\ "USD" ∈ TARGET_CURRENCIES
  /\ [CStr "2024-01-02"; CInt (10 ^ 400); CFloat 2.5]
     ∈ iterrows historical_usd_huge
  /\ historical_raises historical_usd_huge "USD"
       [CStr "2024-01-02"; CInt (10 ^ 400); CFloat 2.5] = true
  /\ is_Some (kept repr_nan historical_usd_huge "USD"
                [CStr "2024-01-01"; CInt 2; CFloat 1.5])
  /\ parse_historical_rates repr_nan (Exists (Frame historical_usd_huge))
     = Raise RuntimeError
  /\ (parse_historical_rates repr_nan (Exists (Frame historical_all_blank))
      = Raise (ValueError NoValidHistoricalRates)
      <-> forall c row,
            c ∈ TARGET_CURRENCIES -> has_column historical_all_blank c = true ->
            row ∈ iterrows historical_all_blank ->
            historical_raises historical_all_blank c row = false
            /\ kept repr_nan historical_all_blank c row = None)
  /\ parse_historical_rates repr_nan (Exists (Frame historical_all_blank))
     = Raise (ValueError NoValidHistoricalRates).
Proof.
  assert (R : rows historical_usd_huge <> []) by discriminate.
  assert (D : has_column historical_usd_huge "Date" = true) by reflexivity.
  assert (U : "USD" ∈ TARGET_CURRENCIES) by apply list_elem_of_here.
  assert (I : [CStr "2024-01-02"; CInt (10 ^ 400); CFloat 2.5]
              ∈ iterrows historical_usd_huge)
    by apply list_elem_of_further, list_elem_of_here.
  split; [exact R|]. split; [exact D|]. split; [exact U|].
  split; [exact I|]. split; [reflexivity|]. split; [by eexists|].
  split; [|split; [|reflexivity]].
  - apply (proj1 (historical_error_boundary repr_nan historical_usd_huge R D)).
    exists "USD", [CStr "2024-01-02"; CInt (10 ^ 400); CFloat 2.5].
    repeat split; [exact U | exact I].
  - apply (historical_error_boundary repr_nan historical_all_blank);
      [discriminate | reflexivity].
Defined.

Lemma historical_tally_witness :
  parse_historical_rates repr_nan (Exists (Frame historical_blank_usd))
  = Ok (DataFrame_of_records
          [Observation "2024-01-01" "SEK" 11.2;
           Observation "2024-01-01" "SEK" 11.3])
  /\ currencies_found (historical_loop repr_nan historical_blank_usd) !! "SEK"
     = Some 2%nat
  /\ currencies_found (historical_loop repr_nan historical_blank_usd) !! "USD"
     = Some 0%nat
  /\ currencies_found (historical_loop repr_nan historical_blank_usd) !! "GBP"
     = None
  /\ missing_columns (historical_loop repr_nan historical_blank_usd)
     = ["GBP"; "JPY"].
Proof.
  assert (E : parse_historical_rates repr_nan
                (Exists (Frame historical_blank_usd))
              = Ok (DataFrame_of_records
                      [Observation "2024-01-01" "SEK" 11.2;
                       Observation "2024-01-01" "SEK" 11.3]))
    by reflexivity.
  destruct (historical_tally repr_nan historical_blank_usd _ E) as [M T].
  split; [exact E|].
  split; [exact (T "SEK" ltac:(right; left))|].
  split; [exact (T "USD" ltac:(left))|].
  split; [exact (T "GBP" ltac:(right; right; left)) | exact M].
Defined.

Lemma extracted_means_witness :
  parse_historical_rates repr_nan (Exists (Frame historical_blank_usd))
  = Ok (DataFrame_of_records
          [Observation "2024-01-01" "SEK" 11.2;
           Observation "2024-01-01" "SEK" 11.3])
  /\ exists m,
      calculate_mean_rates group_mean
        (DataFrame_of_records
           [Observation "2024-01-01" "SEK" 11.2;
            Observation "2024-01-01" "SEK" 11.3]) = Ok m
      /\ m !! "SEK" = Some (group_mean [11.2; 11.3]%float)
      /\ m !! "USD" = None.
Proof.
  assert (E : parse_historical_rates repr_nan
                (Exists (Frame historical_blank_usd))
              = Ok (DataFrame_of_records
                      [Observation "2024-01-01" "SEK" 11.2;
                       Observation "2024-01-01" "SEK" 11.3]))
    by reflexivity.
  split; [exact E|].
  destruct (extracted_means repr_nan group_mean historical_blank_usd _ E)
    as (m & Hm & L & _).
  exists m. split; [exact Hm|].
  split; [exact (L "SEK" ltac:(right; left)) | exact (L "USD" ltac:(left))].
Defined.


Lemma report_cells_have_four_decimals_witness :
  TableRow "USD" "1.0850" "N/A"
    ∈ create_html_table {[ "USD" := 1.0850%float ]} ∅
  /\ ("1.0850" ∈ ["N/A"; "nan"; "inf"; "-inf"] \/ four_decimals "1.0850")
  /\ ("N/A" ∈ ["N/A"; "nan"; "inf"; "-inf"] \/ four_decimals "N/A").
Proof.
  assert (E : TableRow "USD" "1.0850" "N/A"
                ∈ create_html_table {[ "USD" := 1.0850%float ]} ∅)
    by left.
  split; [exact E|].
  exact (report_cells_have_four_decimals _ _ _ E).
Defined.

Lemma main_unreachable_failures_witness :
  main_run repr_nan group_mean codes_only
    (Exists (Frame daily_example_1)) (Exists (Frame historical_example_3))
    Denied
  = Failed (SaveFailure SavePermissionError)
  /\ SaveFailure SavePermissionError <> DailyFailure FileNotFoundError
  /\ SaveFailure SavePermissionError <> HistoricalFailure FileNotFoundError
  /\ (forall e, SaveFailure SavePermissionError <> MeanFailure e)
  /\ SaveFailure SavePermissionError <> NoExchangeRateData
  /\ SaveFailure SavePermissionError <> SaveFailure SaveValueError.
Proof.
  assert (E : main_run repr_nan group_mean codes_only
                (Exists (Frame daily_example_1))
                (Exists (Frame historical_example_3)) Denied
              = Failed (SaveFailure SavePermissionError))
    by reflexivity.
  split; [exact E|].
  exact (main_unreachable_failures repr_nan group_mean codes_only _ _ _ _ E).
Defined.
